(** * PC-Resources-Monitor: a shallow embedding of [pc_monitor.py]

    The program reads the state of the host through [platform] and
    [psutil], formats it and writes every line to the console ([print])
    and to the log ([logging.info]).

    Conventions of the embedding.
    - A Python number is the rational [Q] it stands for: an [int] is
      itself, a finite [float] is the binary64 number it holds.
      Comparison is exact, as in the interpreter.  A division yields a
      [float]: the quotient rounded to binary64 ([Py.binary64]); the
      format [.2f] turns an [int] into a [float] first and then rounds
      the exact decimal expansion.  Magnitudes beyond the range of
      binary64 ([OverflowError], infinities) are not modelled.
    - A percentage reported by [psutil] is rounded to one decimal; it is
      kept as its number of tenths, and its value is the binary64 number
      nearest to it.
    - A string is a [string] of bytes (UTF-8).
    - Output is a trace of events, in the order in which they happen;
      an exception ends the trace. *)

From Stdlib Require Import List String Ascii ZArith NArith QArith Qround Qabs
  Qpower Qreduction DecimalString Lia Lqa Bool.
Import ListNotations.

#[local] Open Scope string_scope.

(** ** Python values as text *)

Module Py.

(** [str(n)] for a non-negative [int]. *)
Definition str_N (n : N) : string := NilZero.string_of_uint (N.to_uint n).

(** [str(z)] for an [int]. *)
Definition str_Z (z : Z) : string := NilZero.string_of_int (Z.to_int z).

(** [str(x)] for an optional value: [None] prints as ["None"]. *)
Definition str_opt {A : Type} (str : A -> string) (x : option A) : string :=
  match x with
  | Some a => str a
  | None => "None"
  end.

(** [s * n] on strings. *)
Fixpoint str_mul (s : string) (n : nat) : string :=
  match n with
  | O => ""
  | S k => s ++ str_mul s k
  end.

(** Nearest integer, ties to the even neighbour. *)
Definition round_half_even (q : Q) : Z :=
  let fl := Qfloor q in
  match Qcompare (q - inject_Z fl) (1 # 2) with
  | Lt => fl
  | Gt => (fl + 1)%Z
  | Eq => if Z.even fl then fl else (fl + 1)%Z
  end.

(** Two to the power [e]. *)
Definition pow2 (e : Z) : Q := 2 ^ e.

(** The binade of a positive number: the [e] with 2^e <= q < 2^(e+1). *)
Definition binade (q : Q) : Z :=
  let e := (Z.log2 (Qnum q) - Z.log2 (Zpos (Qden q)))%Z in
  if Qle_bool (pow2 e) q then e else (e - 1)%Z.

(** The spacing of the binary64 numbers around [q]: 53 significant
    bits, and no finer than 2^-1074. *)
Definition ulp (q : Q) : Q := pow2 (Z.max (binade (Qabs q) - 52) (-1074)).

(** The binary64 number nearest to [q], ties to the even one: what
    [float(n)] and a true division yield. *)
Definition binary64 (q : Q) : Q :=
  Qred (inject_Z (round_half_even (q / ulp q)) * ulp q).

(** Two decimal digits, zero padded. *)
Definition two_digits (z : Z) : string :=
  (if (z <? 10)%Z then "0" else "") ++ str_Z z.

(** The format specification [.2f]: the number as a [float], then its
    sign, integer part, a dot and exactly two decimals of the correctly
    rounded value. *)
Definition format_2f (q : Q) : string :=
  let hundredths := round_half_even (Qabs (binary64 q) * 100) in
  (if Qle_bool 0 q then "" else "-")
    ++ str_Z (hundredths / 100) ++ "." ++ two_digits (hundredths mod 100).

(** A one-decimal reading such as [45.3], kept as 453 tenths. *)
Definition tenths := N.

(** The [float] of such a reading. *)
Definition tenths_value (t : tenths) : Q := binary64 (Z.of_N t # 10).

(** [str(x)] for a float with one decimal. *)
Definition str_tenths (t : tenths) : string :=
  str_N (t / 10) ++ "." ++ str_N (t mod 10).

(** A member of an [IntEnum] such as [socket.AddressFamily]: the class
    and the name it was defined with, and its value.  What [str]
    yields is decided by the class of the member: the qualified name up
    to Python 3.10, the value from Python 3.11 on, where an [IntEnum]
    prints as the [int] it is. *)
Record IntEnum := {
  enum_class : string; enum_name : string; enum_value : Z;
  prints_as_int : bool }.

(** [str(member)] *)
Definition str_enum (member : IntEnum) : string :=
  if prints_as_int member then str_Z (enum_value member)
  else enum_class member ++ "." ++ enum_name member.

End Py.

(** ** [get_size] *)

Definition factor : Q := 1024.

Definition units : list string := [""; "K"; "M"; "G"; "T"; "P"].

(** The body of [for unit in ...]: return at the first unit under which
    the value is below [factor], else divide ([bytes /= factor], a true
    division) and go on.  When the list
    is exhausted the function ends without a [return]: the result is
    Python's [None]. *)
Fixpoint get_size_loop (us : list string) (bytes : Q) (suffix : string)
  : option string :=
  match us with
  | [] => None
  | unit :: rest =>
      if negb (Qle_bool factor bytes)
      then Some (Py.format_2f bytes ++ unit ++ suffix)
      else get_size_loop rest (Py.binary64 (bytes / factor)) suffix
  end.

Definition get_size (bytes : Q) (suffix : string) : option string :=
  get_size_loop units bytes suffix.

(** The default argument [suffix='B']. *)
Definition get_size_B (bytes : Q) : option string := get_size bytes "B".

(** ** Readings of the host

    The named tuples of [platform] and [psutil], with the fields the
    program reads (and, for [sswap], all of them: the program tests the
    tuple itself). *)

Record uname_result := {
  system : string; node : string; release : string;
  version : string; machine : string; processor : string }.

Record scpufreq := { current : Q; min : Q; max : Q }.

Record sswap := {
  swap_total : Z; swap_used : Z; swap_free : Z; swap_percent : Py.tenths;
  sin : Z; sout : Z }.

Record svmem := {
  mem_total : Z; mem_available : Z; mem_percent : Py.tenths;
  mem_used : Z; mem_free : Z }.

Record sdiskpart := { device : string; mountpoint : string; fstype : string }.

Record sdiskusage := {
  du_total : Z; du_used : Z; du_free : Z; du_percent : Py.tenths }.

Record snicaddr := {
  family : Py.IntEnum; address : string;
  netmask : option string; broadcast : option string }.

Record snetio := { bytes_sent : Z; bytes_recv : Z }.

Inductive exn := AttributeError | PermissionError | OSError | FileNotFoundError.

(** What the host answers at one moment.  [psutil.cpu_freq()] is [None]
    where the frequency cannot be read; [psutil.net_io_counters()] is
    [None] on a host without network interfaces; [psutil.cpu_count] may
    be [None]; [psutil.disk_usage] may raise.  [open_log_file] is the
    exception, if any, that opening [data/computer_resources.log] for
    writing raises ([FileNotFoundError] where the directory is
    missing). *)
Record World := {
  platform_uname : uname_result;
  psutil_cpu_freq : option scpufreq;
  psutil_swap_memory : sswap;
  psutil_virtual_memory : svmem;
  psutil_disk_partitions : list sdiskpart;
  psutil_net_if_addrs : list (string * list snicaddr);
  psutil_net_io_counters : option snetio;
  psutil_cpu_count : bool -> option N;
  psutil_cpu_percent_percpu : list Py.tenths;
  psutil_cpu_percent : Py.tenths;
  psutil_disk_usage : string -> exn + sdiskusage;
  open_log_file : option exn }.

(** ** Output and exceptions *)

Inductive event :=
| Print (text : string)
| LogInfo (text : string).

Inductive outcome (A : Type) :=
| Returned (a : A)
| Raised (e : exn).
Arguments Returned {A} a.
Arguments Raised {A} e.

(** A computation: the events it produced, then how it ended. *)
Definition io (A : Type) : Type := (list event * outcome A)%type.

Definition ret {A} (a : A) : io A := ([], Returned a).

Definition raise {A} (e : exn) : io A := ([], Raised e).

Definition bind {A B} (m : io A) (k : A -> io B) : io B :=
  match m with
  | (t, Returned a) => let (t', r) := k a in ((t ++ t')%list, r)
  | (t, Raised e) => (t, Raised e)
  end.

Declare Scope io_scope.
Delimit Scope io_scope with io.
Notation "x <- m ;; k" := (bind m (fun x => k))
  (at level 61, m at next level, right associativity) : io_scope.
Notation "m ;; k" := (bind m (fun _ => k))
  (at level 61, right associativity) : io_scope.
#[local] Open Scope io_scope.

Definition trace {A} (m : io A) : list event := fst m.
Definition result {A} (m : io A) : outcome A := snd m.

(** What reached the console, and the messages handed to the logger. *)
Fixpoint console (t : list event) : list string :=
  match t with
  | [] => []
  | Print s :: t' => s :: console t'
  | LogInfo _ :: t' => console t'
  end.

Fixpoint log (t : list event) : list string :=
  match t with
  | [] => []
  | Print _ :: t' => log t'
  | LogInfo s :: t' => s :: log t'
  end.

(** [for x in l: body(x)] *)
Fixpoint for_each {A} (body : A -> io unit) (l : list A) : io unit :=
  match l with
  | [] => ret tt
  | x :: l' => body x ;; for_each body l'
  end.

(** [enumerate(l)] *)
Definition enumerate {A} (l : list A) : list (nat * A) :=
  combine (seq 0 (List.length l)) l.

Definition print (text : string) : io unit := ([Print text], Returned tt).

(** [print(a, b, c)]: the arguments separated by one space. *)
Definition print3 (a b c : string) : io unit := print (a ++ " " ++ b ++ " " ++ c).

Definition logging_info (text : string) : io unit := ([LogInfo text], Returned tt).

Definition print_log (text : string) : io unit :=
  logging_info text ;;
  print text.

(** [obj.attr] where [obj] may be [None]. *)
Definition getattr {A B} (obj : option A) (attr : A -> B) : io B :=
  match obj with
  | Some a => ret (attr a)
  | None => raise AttributeError
  end.

(** [psutil.disk_usage(path)] *)
Definition disk_usage (w : World) (path : string) : io sdiskusage :=
  match psutil_disk_usage w path with
  | inr u => ret u
  | inl e => raise e
  end.

(** [{get_size(x)}] inside an f-string. *)
Definition size (bytes : Q) : string := Py.str_opt id (get_size_B bytes).

(** ** [ResourceMonitor] *)

Record ResourceMonitor := {
  uname : uname_result;
  cpufreq : option scpufreq;
  swap : sswap;
  svmemory : svmem;
  partitions : list sdiskpart;
  if_addrs : list (string * list snicaddr);
  net_io : option snetio }.

Definition init (w : World) : ResourceMonitor := {|
  uname := platform_uname w;
  cpufreq := psutil_cpu_freq w;
  swap := psutil_swap_memory w;
  svmemory := psutil_virtual_memory w;
  partitions := psutil_disk_partitions w;
  if_addrs := psutil_net_if_addrs w;
  net_io := psutil_net_io_counters w |}.

Section Methods.

Variable self : ResourceMonitor.
(** The host at the time of the call. *)
Variable w : World.

Definition system_info : io unit :=
  print3 (Py.str_mul "=" 10) "Информация о системе" (Py.str_mul "=" 10) ;;
  logging_info "Информация о системе" ;;
  print_log ("Система: " ++ system (uname self)) ;;
  print_log ("Имя сетевого узла: " ++ node (uname self)) ;;
  print_log ("Выпуск: " ++ release (uname self)) ;;
  print_log ("Версия: " ++ version (uname self)) ;;
  print_log ("Машина: " ++ machine (uname self)) ;;
  print_log ("Процессор: " ++ processor (uname self)).

Definition proc_info : io unit :=
  print3 (Py.str_mul "=" 10) "Информация о процессоре" (Py.str_mul "=" 10) ;;
  logging_info "Информация о процессоре" ;;
  print_log ("Физические ядра: " ++ Py.str_opt Py.str_N (psutil_cpu_count w false)) ;;
  print_log ("Количество ядер: " ++ Py.str_opt Py.str_N (psutil_cpu_count w true)) ;;
  f_max <- getattr (cpufreq self) max ;;
  print_log ("Маскимальная частота процессора: " ++ Py.format_2f f_max ++ "МГц") ;;
  f_min <- getattr (cpufreq self) min ;;
  print_log ("Минимальная частота процессора: " ++ Py.format_2f f_min ++ "МГц") ;;
  f_current <- getattr (cpufreq self) current ;;
  print_log ("Текущая частота процессора: " ++ Py.format_2f f_current ++ "МГц") ;;
  for_each (fun '(i, percentage) =>
      print_log ("Загруженность ядра " ++ Py.str_N (N.of_nat i) ++ ": "
                   ++ Py.str_tenths percentage ++ "%"))
    (enumerate (psutil_cpu_percent_percpu w)) ;;
  print_log ("Общая загруженность процессора: "
               ++ Py.str_tenths (psutil_cpu_percent w) ++ "%").

(** One f-string of [network_info]: the literal text with the
    interface name filled in, and the value that follows it. *)
Definition fact : Type := (string * string)%type.

Definition render (f : fact) : string := fst f ++ snd f.

(** The three branches on [str(address.family)]. *)
Definition address_facts (inteface_name : string) (addr : snicaddr) : list fact :=
  if String.eqb (Py.str_enum (family addr)) "AddressFamily.AF_INET" then
    [ ("Тип интерфейса сети " ++ inteface_name ++ ": ",
        Py.str_enum (family addr));
      ("IP интерфейса сети " ++ inteface_name ++ ": ", address addr);
      ("Сетевая маска интерфейса сети " ++ inteface_name ++ ": ",
        Py.str_opt id (netmask addr));
      ("Широковещательный IP-адрес интерфейса сети " ++ inteface_name ++ ": ",
        Py.str_opt id (broadcast addr)) ]
  else if String.eqb (Py.str_enum (family addr)) "AddressFamily.AF_PACKET" then
    [ ("Тип интерфейса сети " ++ inteface_name ++ ": ",
        Py.str_enum (family addr));
      ("MAC-адрес интерфейса сети " ++ inteface_name ++ ": ", address addr);
      ("Сетевая маска интерфейса сети " ++ inteface_name ++ ": ",
        Py.str_opt id (netmask addr));
      ("Широковещательный IP-адрес интерфейса сети " ++ inteface_name ++ ": ",
        Py.str_opt id (broadcast addr)) ]
  else
    [ ("Тип интерфейса сети " ++ inteface_name ++ ": ",
        Py.str_enum (family addr));
      ("MAC-адрес интерфейса сети " ++ inteface_name ++ ": ", address addr);
      ("Сетевая маска интерфейса сети " ++ inteface_name ++ ": ",
        Py.str_opt id (netmask addr));
      ("Широковещательный IP-адрес интерфейса сети " ++ inteface_name ++ ": ",
        Py.str_opt id (broadcast addr)) ].

(** The body of the inner loop, for one address of one interface. *)
Definition network_address (inteface_name : string) (addr : snicaddr) : io unit :=
  print3 (Py.str_mul "=" 5)
    ("Информация о интерфейсе сети: " ++ inteface_name) (Py.str_mul "=" 5) ;;
  logging_info ("Информация о интерфейсе сети: " ++ inteface_name) ;;
  for_each (fun f => print_log (render f)) (address_facts inteface_name addr).

Definition network_interface (item : string * list snicaddr) : io unit :=
  let '(inteface_name, interface_addresses) := item in
  for_each (network_address inteface_name) interface_addresses.

Definition network_info : io unit :=
  print3 (Py.str_mul "=" 10) "Информация о сети" (Py.str_mul "=" 10) ;;
  logging_info "Информация о сети" ;;
  for_each network_interface (if_addrs self) ;;
  sent <- getattr (net_io self) bytes_sent ;;
  print_log ("Общее количество отправленных байтов: " ++ size (inject_Z sent)) ;;
  recv <- getattr (net_io self) bytes_recv ;;
  print_log ("Общее количество полученных байтов: " ++ size (inject_Z recv)).

(** The four lines after a usage query that succeeded. *)
Definition disk_usage_lines (partition : sdiskpart) (partition_usage : sdiskusage)
  : io unit :=
  print_log ("Общий обьем раздела диска " ++ device partition ++ ": "
               ++ size (inject_Z (du_total partition_usage))) ;;
  print_log ("Используемый обьем раздела диска " ++ device partition ++ ": "
               ++ size (inject_Z (du_used partition_usage))) ;;
  print_log ("Свободный обьем раздела диска " ++ device partition ++ ": "
               ++ size (inject_Z (du_free partition_usage))) ;;
  print_log ("Процент объема раздела диска " ++ device partition ++ ": "
               ++ size (Py.tenths_value (du_percent partition_usage))).

(** The body of the loop over the partitions; [except PermissionError:
    continue] ends the body, any other exception leaves the method. *)
Definition disk_partition (partition : sdiskpart) : io unit :=
  print3 (Py.str_mul "=" 5)
    ("Информация о разделе диска: " ++ device partition) (Py.str_mul "=" 5) ;;
  logging_info ("Информация о разделе диска: " ++ device partition) ;;
  print_log ("Файловая система раздела диска " ++ device partition ++ ": "
               ++ fstype partition) ;;
  match disk_usage w (mountpoint partition) with
  | (_, Raised PermissionError) => ret tt
  | (_, Raised e) => raise e
  | (_, Returned partition_usage) => disk_usage_lines partition partition_usage
  end.

Definition disk_info : io unit :=
  print3 (Py.str_mul "=" 10) "Информация о дисках" (Py.str_mul "=" 10) ;;
  logging_info "Информация о дисках" ;;
  for_each disk_partition (partitions self).

(** The tuple behind an [sswap], and [bool(t)] of a tuple: a tuple is
    true when it has at least one item. *)
Definition sswap_tuple (s : sswap) : list Q :=
  [ inject_Z (swap_total s); inject_Z (swap_used s); inject_Z (swap_free s);
    Py.tenths_value (swap_percent s); inject_Z (sin s); inject_Z (sout s) ].

Definition truth {A} (t : list A) : bool := negb (Nat.eqb (List.length t) 0).

Definition swap_lines : io unit :=
  print3 (Py.str_mul "=" 5) "Информация о памяти подкачки" (Py.str_mul "=" 5) ;;
  logging_info "Информация о памяти подкачки" ;;
  print_log ("Объем памяти подкачки: " ++ size (inject_Z (swap_total (swap self)))) ;;
  print_log ("Свободно памяти подкачки: " ++ size (inject_Z (swap_free (swap self)))) ;;
  print_log ("Используется памяти подкачки: "
               ++ size (inject_Z (swap_used (swap self)))) ;;
  print_log ("Процент памяти подкачки: "
               ++ Py.str_tenths (swap_percent (swap self)) ++ "%").

Definition ram_info : io unit :=
  print3 (Py.str_mul "=" 10) "Информация об ОЗУ" (Py.str_mul "=" 10) ;;
  logging_info "Информация об ОЗУ" ;;
  print_log ("Объем ОЗУ: " ++ size (inject_Z (mem_total (svmemory self)))) ;;
  print_log ("Доступно ОЗУ: " ++ size (inject_Z (mem_available (svmemory self)))) ;;
  print_log ("Используется ОЗУ: " ++ size (inject_Z (mem_used (svmemory self)))) ;;
  print_log ("Процент ОЗУ: " ++ size (Py.tenths_value (mem_percent (svmemory self)))) ;;
  if truth (sswap_tuple (swap self)) then swap_lines else ret tt.

Definition call_all : io unit :=
  system_info ;;
  proc_info ;;
  ram_info ;;
  disk_info ;;
  network_info.

End Methods.

(** [logging.basicConfig] with a file name opens the file at once; it
    produces no event, and raises what opening the file raises.  (The
    level and the record format [time [level] message] do not bear on
    what is handed to the logger.) *)
Definition start_logger (w : World) : io unit :=
  match open_log_file w with
  | None => ret tt
  | Some e => raise e
  end.

Definition start_pc_monitor (w : World) : io unit :=
  start_logger w ;;
  let monitor := init w in
  call_all monitor w.

(** ** A sample host *)

Module Sample.

(** Members of [socket.AddressFamily] as Python up to 3.10 builds them
    (values as on Linux). *)
Definition AF_INET : Py.IntEnum := {|
  Py.enum_class := "AddressFamily"; Py.enum_name := "AF_INET";
  Py.enum_value := 2; Py.prints_as_int := false |}.

Definition AF_INET6 : Py.IntEnum := {|
  Py.enum_class := "AddressFamily"; Py.enum_name := "AF_INET6";
  Py.enum_value := 10; Py.prints_as_int := false |}.

Definition AF_PACKET : Py.IntEnum := {|
  Py.enum_class := "AddressFamily"; Py.enum_name := "AF_PACKET";
  Py.enum_value := 17; Py.prints_as_int := false |}.

Definition eth0_inet : snicaddr := {|
  family := AF_INET; address := "192.168.1.10";
  netmask := Some "255.255.255.0"; broadcast := Some "192.168.1.255" |}.

Definition eth0_packet : snicaddr := {|
  family := AF_PACKET; address := "aa:bb:cc:dd:ee:ff";
  netmask := None; broadcast := Some "ff:ff:ff:ff:ff:ff" |}.

Definition eth0_inet6 : snicaddr := {|
  family := AF_INET6; address := "fe80::a8bb:ccff:fedd:eeff";
  netmask := Some "ffff:ffff:ffff:ffff::"; broadcast := None |}.

Definition sda1 : sdiskpart :=
  {| device := "/dev/sda1"; mountpoint := "/"; fstype := "ext4" |}.

Definition sr0 : sdiskpart :=
  {| device := "/dev/sr0"; mountpoint := "/media/cd"; fstype := "iso9660" |}.

Definition sdb1 : sdiskpart :=
  {| device := "/dev/sdb1"; mountpoint := "/home"; fstype := "ext4" |}.

Definition GiB : Z := (1024 * 1024 * 1024)%Z.

Definition usage (percent : Py.tenths) (used : Z) (path : string)
  : exn + sdiskusage :=
  if String.eqb path "/media/cd" then inl PermissionError
  else inr {| du_total := (100 * GiB)%Z; du_used := used;
              du_free := (100 * GiB - used)%Z; du_percent := percent |}.

Definition host : World := {|
  platform_uname := {| system := "Linux"; node := "box"; release := "6.1";
                       version := "#1 SMP"; machine := "x86_64";
                       processor := "x86_64" |};
  psutil_cpu_freq := Some {| current := 1800; min := 800; max := 3600 |};
  psutil_swap_memory := {| swap_total := 0; swap_used := 0; swap_free := 0;
                           swap_percent := 0%N; sin := 0; sout := 0 |};
  psutil_virtual_memory := {| mem_total := (8 * GiB)%Z; mem_available := (8 * GiB)%Z;
                              mem_percent := 453%N; mem_used := 0; mem_free := (8 * GiB)%Z |};
  psutil_disk_partitions := [sda1; sr0; sdb1];
  psutil_net_if_addrs := [("lo", []); ("eth0", [eth0_inet; eth0_packet])];
  psutil_net_io_counters := Some {| bytes_sent := 2048; bytes_recv := 1536 |};
  psutil_cpu_count := fun logical => if logical then Some 4%N else Some 2%N;
  psutil_cpu_percent_percpu := [125%N; 0%N; 1000%N; 37%N];
  psutil_cpu_percent := 291%N;
  psutil_disk_usage := usage 400%N (40 * GiB)%Z;
  open_log_file := None |}.

(** The same host a moment later: more of the disks is in use. *)
Definition host_later : World := {|
  platform_uname := platform_uname host;
  psutil_cpu_freq := psutil_cpu_freq host;
  psutil_swap_memory := psutil_swap_memory host;
  psutil_virtual_memory := psutil_virtual_memory host;
  psutil_disk_partitions := psutil_disk_partitions host;
  psutil_net_if_addrs := psutil_net_if_addrs host;
  psutil_net_io_counters := psutil_net_io_counters host;
  psutil_cpu_count := psutil_cpu_count host;
  psutil_cpu_percent_percpu := psutil_cpu_percent_percpu host;
  psutil_cpu_percent := psutil_cpu_percent host;
  psutil_disk_usage := usage 410%N (41 * GiB)%Z;
  open_log_file := None |}.

(** A host without a frequency sensor. *)
Definition host_no_freq : World := {|
  platform_uname := platform_uname host;
  psutil_cpu_freq := None;
  psutil_swap_memory := psutil_swap_memory host;
  psutil_virtual_memory := psutil_virtual_memory host;
  psutil_disk_partitions := psutil_disk_partitions host;
  psutil_net_if_addrs := psutil_net_if_addrs host;
  psutil_net_io_counters := psutil_net_io_counters host;
  psutil_cpu_count := psutil_cpu_count host;
  psutil_cpu_percent_percpu := psutil_cpu_percent_percpu host;
  psutil_cpu_percent := psutil_cpu_percent host;
  psutil_disk_usage := psutil_disk_usage host;
  open_log_file := None |}.

End Sample.

(** * Vocabulary of the properties *)

(** 1024 to the fifth and sixth power. *)
Definition pebi : Q := 1125899906842624.
Definition exbi : Q := 1152921504606846976.

(** The events of [proc_info] before the first frequency line. *)
Definition core_count_events (w : World) : list event :=
  [ Print "========== Информация о процессоре ==========";
    LogInfo "Информация о процессоре";
    LogInfo ("Физические ядра: " ++ Py.str_opt Py.str_N (psutil_cpu_count w false));
    Print ("Физические ядра: " ++ Py.str_opt Py.str_N (psutil_cpu_count w false));
    LogInfo ("Количество ядер: " ++ Py.str_opt Py.str_N (psutil_cpu_count w true));
    Print ("Количество ядер: " ++ Py.str_opt Py.str_N (psutil_cpu_count w true)) ].

(** What every partition contributes: its header and its file system. *)
Definition partition_identity (partition : sdiskpart) : list event :=
  [ Print ("===== Информация о разделе диска: " ++ device partition ++ " =====");
    LogInfo ("Информация о разделе диска: " ++ device partition);
    LogInfo ("Файловая система раздела диска " ++ device partition ++ ": "
               ++ fstype partition);
    Print ("Файловая система раздела диска " ++ device partition ++ ": "
             ++ fstype partition) ].

Definition disk_header : list event :=
  [ Print "========== Информация о дисках =========="; LogInfo "Информация о дисках" ].

Inductive domain := System | Cpu | Memory | Disk | Network.

(** One domain method, called on a collector while the host is in state
    [w]. *)
Definition query (d : domain) (self : ResourceMonitor) (w : World) : io unit :=
  match d with
  | System => system_info self
  | Cpu => proc_info self w
  | Memory => ram_info self
  | Disk => disk_info self w
  | Network => network_info self
  end.

(** The readings the methods take from the host when they are called:
    the core counts, the load percentages, and the usage of the
    collector's partitions. *)
Definition same_live_readings (self : ResourceMonitor) (w1 w2 : World) : Prop :=
  (forall logical, psutil_cpu_count w1 logical = psutil_cpu_count w2 logical)
  /\ psutil_cpu_percent_percpu w1 = psutil_cpu_percent_percpu w2
  /\ psutil_cpu_percent w1 = psutil_cpu_percent w2
  /\ (forall p, In p (partitions self) ->
        psutil_disk_usage w1 (mountpoint p) = psutil_disk_usage w2 (mountpoint p)).

Inductive family_class := IPv4 | LinkLayer | Other.

(** The class the two comparisons of [network_info] put a family in. *)
Definition classify (family_text : string) : family_class :=
  if String.eqb family_text "AddressFamily.AF_INET" then IPv4
  else if String.eqb family_text "AddressFamily.AF_PACKET" then LinkLayer
  else Other.

(** The label in front of the address. *)
Definition address_label (c : family_class) (inteface_name : string) : string :=
  match c with
  | IPv4 => "IP интерфейса сети " ++ inteface_name ++ ": "
  | LinkLayer | Other => "MAC-адрес интерфейса сети " ++ inteface_name ++ ": "
  end.

Definition interface_header (inteface_name : string) : list event :=
  [ Print ("===== Информация о интерфейсе сети: " ++ inteface_name ++ " =====");
    LogInfo ("Информация о интерфейсе сети: " ++ inteface_name) ].

(** The events of one [print_log]. *)
Definition print_log_events (text : string) : list event :=
  [ LogInfo text; Print text ].

(** The header of an interface, as logged and as printed. *)
Definition header_message (inteface_name : string) : string :=
  "Информация о интерфейсе сети: " ++ inteface_name.

Definition header_line (inteface_name : string) : string :=
  "===== Информация о интерфейсе сети: " ++ inteface_name ++ " =====".

(** [print('=' * n, text, '=' * n)] *)
Definition framed (n : nat) (text : string) : string :=
  Py.str_mul "=" n ++ " " ++ text ++ " " ++ Py.str_mul "=" n.

(** A trace made of facts (logged, then printed, with the same text)
    and of headers (printed in a frame, then logged bare). *)
Inductive Paired : list event -> Prop :=
| Paired_nil : Paired []
| Paired_fact (text : string) (t : list event) :
    Paired t -> Paired (LogInfo text :: Print text :: t)
| Paired_header (n : nat) (text : string) (t : list event) :
    Paired t -> Paired (Print (framed n text) :: LogInfo text :: t).

Definition same_or_framed (printed logged : string) : Prop :=
  printed = logged \/ exists n, printed = framed n logged.

(** 1024 to the power [k]. *)
Fixpoint kibi_power (k : nat) : Q :=
  match k with
  | O => 1
  | S k' => 1024 * kibi_power k'
  end.


(** A usage query that ends the loop body normally. *)
Definition usable (w : World) (p : sdiskpart) : Prop :=
  psutil_disk_usage w (mountpoint p) = inl PermissionError
  \/ exists u, psutil_disk_usage w (mountpoint p) = inr u.

(** All the addresses of the interface table, in order. *)
Definition all_addresses (self : ResourceMonitor) : list snicaddr :=
  flat_map snd (if_addrs self).

(** Hosts and collectors with a fault. *)
Module Faulty.

(** The sample host with no medium in the drive: the usage query of its
    mount point fails, and not for want of permission. *)
Definition host_no_medium : World := {|
  platform_uname := platform_uname Sample.host;
  psutil_cpu_freq := psutil_cpu_freq Sample.host;
  psutil_swap_memory := psutil_swap_memory Sample.host;
  psutil_virtual_memory := psutil_virtual_memory Sample.host;
  psutil_disk_partitions := psutil_disk_partitions Sample.host;
  psutil_net_if_addrs := psutil_net_if_addrs Sample.host;
  psutil_net_io_counters := psutil_net_io_counters Sample.host;
  psutil_cpu_count := psutil_cpu_count Sample.host;
  psutil_cpu_percent_percpu := psutil_cpu_percent_percpu Sample.host;
  psutil_cpu_percent := psutil_cpu_percent Sample.host;
  psutil_disk_usage := fun path =>
    if String.eqb path "/media/cd" then inl OSError
    else psutil_disk_usage Sample.host path;
  open_log_file := None |}.

(** A collector whose counter of sent bytes stands at 2^60. *)
Definition busy_link : ResourceMonitor := {|
  uname := platform_uname Sample.host;
  cpufreq := psutil_cpu_freq Sample.host;
  swap := psutil_swap_memory Sample.host;
  svmemory := psutil_virtual_memory Sample.host;
  partitions := psutil_disk_partitions Sample.host;
  if_addrs := psutil_net_if_addrs Sample.host;
  net_io := Some {| bytes_sent := 1152921504606846976; bytes_recv := 1536 |} |}.

(** The sample host without any network interface. *)
Definition host_no_interface : World := {|
  platform_uname := platform_uname Sample.host;
  psutil_cpu_freq := psutil_cpu_freq Sample.host;
  psutil_swap_memory := psutil_swap_memory Sample.host;
  psutil_virtual_memory := psutil_virtual_memory Sample.host;
  psutil_disk_partitions := psutil_disk_partitions Sample.host;
  psutil_net_if_addrs := [];
  psutil_net_io_counters := None;
  psutil_cpu_count := psutil_cpu_count Sample.host;
  psutil_cpu_percent_percpu := psutil_cpu_percent_percpu Sample.host;
  psutil_cpu_percent := psutil_cpu_percent Sample.host;
  psutil_disk_usage := psutil_disk_usage Sample.host;
  open_log_file := None |}.

End Faulty.

(** The numbers binary64 holds: 53 significant bits, exponents within
    its range. *)
Definition representable (q : Q) : Prop :=
  exists m e : Z,
    (Z.abs m < 2 ^ 53)%Z /\ (-1074 <= e <= 971)%Z /\ q == inject_Z m * Py.pow2 e.

(** The largest binary64 number below 2^k. *)
Definition below_pow2 (k : Z) : Q := inject_Z (2 ^ 53 - 1) * Py.pow2 (k - 53).

(** The events of the two counter lines; none where the collector holds
    no counters. *)
Definition counter_events (counters : option snetio) : list event :=
  match counters with
  | Some c =>
      (print_log_events ("Общее количество отправленных байтов: "
                           ++ size (inject_Z (bytes_sent c)))
         ++ print_log_events ("Общее количество полученных байтов: "
                                ++ size (inject_Z (bytes_recv c))))%list
  | None => []
  end.

(** The sample host as Python 3.11 and later report it: the members of
    [socket.AddressFamily] print as their values. *)
Module Python311.

Definition AF_INET : Py.IntEnum := {|
  Py.enum_class := "AddressFamily"; Py.enum_name := "AF_INET";
  Py.enum_value := 2; Py.prints_as_int := true |}.

Definition AF_PACKET : Py.IntEnum := {|
  Py.enum_class := "AddressFamily"; Py.enum_name := "AF_PACKET";
  Py.enum_value := 17; Py.prints_as_int := true |}.

Definition eth0_inet : snicaddr := {|
  family := AF_INET; address := "192.168.1.10";
  netmask := Some "255.255.255.0"; broadcast := Some "192.168.1.255" |}.

Definition eth0_packet : snicaddr := {|
  family := AF_PACKET; address := "aa:bb:cc:dd:ee:ff";
  netmask := None; broadcast := Some "ff:ff:ff:ff:ff:ff" |}.

(** The collector of the sample host, its one interface holding the
    given addresses. *)
Definition on_eth0 (addresses : list snicaddr) : ResourceMonitor := {|
  uname := platform_uname Sample.host;
  cpufreq := psutil_cpu_freq Sample.host;
  swap := psutil_swap_memory Sample.host;
  svmemory := psutil_virtual_memory Sample.host;
  partitions := psutil_disk_partitions Sample.host;
  if_addrs := [("eth0", addresses)];
  net_io := psutil_net_io_counters Sample.host |}.

End Python311.

(** * Properties *)

(** ** Rendering, on examples *)

Example format_2f_tie : Py.format_2f (1152 / 1024) = "1.12".
Proof. vm_compute. reflexivity. Qed.

Example format_2f_up : Py.format_2f (1536 / 1024) = "1.50".
Proof. vm_compute. reflexivity. Qed.

Example format_2f_neg : Py.format_2f (- (1 # 1000)) = "-0.00".
Proof. vm_compute. reflexivity. Qed.

Example str_tenths_ex : Py.str_tenths 453%N = "45.3".
Proof. vm_compute. reflexivity. Qed.

(** ** Binary64 arithmetic *)

Section Binary64.

#[local] Open Scope Q_scope.

(** *** Powers of two *)

Lemma pow2_pos (e : Z) : 0 < Py.pow2 e.
Proof. apply Qpower_0_lt. reflexivity. Qed.

Lemma pow2_nonzero (e : Z) : ~ Py.pow2 e == 0.
Proof. intros H. pose proof (pow2_pos e) as P. rewrite H in P. discriminate P. Qed.

Lemma pow2_add (a b : Z) : Py.pow2 (a + b) == Py.pow2 a * Py.pow2 b.
Proof. apply Qpower_plus. discriminate. Qed.

Lemma pow2_sub (a b : Z) : Py.pow2 (a - b) == Py.pow2 a / Py.pow2 b.
Proof. apply Qpower_minus. discriminate. Qed.

Lemma pow2_le (a b : Z) : (a <= b)%Z -> Py.pow2 a <= Py.pow2 b.
Proof. intros H. apply Qpower_le_compat_l; [exact H | discriminate]. Qed.

Lemma pow2_lt (a b : Z) : (a < b)%Z -> Py.pow2 a < Py.pow2 b.
Proof. intros H. apply Qpower_lt_compat_l; [exact H | reflexivity]. Qed.

Lemma pow2_lt_inv (a b : Z) : Py.pow2 a < Py.pow2 b -> (a < b)%Z.
Proof. intros H. apply (Qpower_lt_compat_l_inv 2); [exact H | reflexivity]. Qed.

Lemma pow2_whole (e : Z) : (0 <= e)%Z -> Py.pow2 e == inject_Z (2 ^ e).
Proof. intros H. unfold Py.pow2. now rewrite Zpower_Qpower. Qed.

(** *** The binade of a positive number *)

Lemma Z_log2_Q (n : Z) :
  (0 < n)%Z -> Py.pow2 (Z.log2 n) <= inject_Z n /\ inject_Z n < Py.pow2 (Z.log2 n + 1).
Proof.
  intros H. destruct (Z.log2_spec n H) as [Hlo Hhi].
  pose proof (Z.log2_nonneg n) as Hnn.
  rewrite !pow2_whole by lia. rewrite <- Zle_Qle, <- Zlt_Qlt.
  split; [exact Hlo |]. now rewrite <- Z.add_1_r in Hhi.
Qed.

Lemma binade_spec (q : Q) :
  0 < q -> Py.pow2 (Py.binade q) <= q /\ q < Py.pow2 (Py.binade q + 1).
Proof.
  intros Hq. destruct q as [n d]. unfold Py.binade. cbn [Qnum Qden].
  assert (Hn : (0 < n)%Z) by (unfold Qlt in Hq; cbn in Hq; lia).
  destruct (Z_log2_Q n Hn) as [Hn1 Hn2].
  destruct (Z_log2_Q (Zpos d) eq_refl) as [Hd1 Hd2].
  set (a := Z.log2 n) in *. set (b := Z.log2 (Zpos d)) in *.
  assert (Hdpos : 0 < inject_Z (Zpos d)) by reflexivity.
  assert (Eq : n # d == inject_Z n / inject_Z (Zpos d)) by apply Qmake_Qdiv.
  destruct (Qle_bool (Py.pow2 (a - b)) (n # d)) eqn:E.
  - apply Qle_bool_iff in E. split; [exact E |].
    rewrite Eq. apply Qlt_shift_div_r; [exact Hdpos |].
    eapply Qlt_le_trans; [exact Hn2 |].
    replace (a + 1)%Z with ((a - b + 1) + b)%Z by lia. rewrite pow2_add.
    apply Qmult_le_l; [apply pow2_pos | exact Hd1].
  - assert (Hlt : n # d < Py.pow2 (a - b)).
    { apply Qnot_le_lt. intros H. apply Qle_bool_iff in H. congruence. }
    split.
    + rewrite Eq. apply Qle_shift_div_l; [exact Hdpos |].
      eapply Qle_trans; [| exact Hn1].
      replace a with ((a - b - 1) + (b + 1))%Z at 2 by lia. rewrite pow2_add.
      apply Qmult_le_l; [apply pow2_pos | now apply Qlt_le_weak].
    + now replace (a - b - 1 + 1)%Z with (a - b)%Z by lia.
Qed.

Lemma binade_unique (q : Q) (e : Z) :
  Py.pow2 e <= q -> q < Py.pow2 (e + 1) -> Py.binade q = e.
Proof.
  intros Hlo Hhi.
  assert (Hq : 0 < q) by (eapply Qlt_le_trans; [apply pow2_pos | exact Hlo]).
  destruct (binade_spec q Hq) as [Blo Bhi].
  assert (H1 : (Py.binade q < e + 1)%Z).
  { apply pow2_lt_inv. eapply Qle_lt_trans; [exact Blo | exact Hhi]. }
  assert (H2 : (e < Py.binade q + 1)%Z).
  { apply pow2_lt_inv. eapply Qle_lt_trans; [exact Hlo | exact Bhi]. }
  lia.
Qed.

Lemma binade_comp (q q' : Q) : 0 < q -> q == q' -> Py.binade q = Py.binade q'.
Proof.
  intros Hq H. symmetry. destruct (binade_spec q Hq) as [Blo Bhi].
  apply binade_unique; now rewrite <- H.
Qed.

Lemma binade_le (q q' : Q) : 0 < q -> q <= q' -> (Py.binade q <= Py.binade q')%Z.
Proof.
  intros Hq H.
  assert (Hq' : 0 < q') by (eapply Qlt_le_trans; eassumption).
  destruct (binade_spec q Hq) as [Blo _]. destruct (binade_spec q' Hq') as [_ Bhi'].
  assert (Hlt : (Py.binade q < Py.binade q' + 1)%Z).
  { apply pow2_lt_inv. eapply Qle_lt_trans; [exact Blo |].
    eapply Qle_lt_trans; [exact H | exact Bhi']. }
  lia.
Qed.

Lemma binade_ge_pow2 (q : Q) (k : Z) : Py.pow2 k <= q -> (k <= Py.binade q)%Z.
Proof.
  intros H.
  assert (Hq : 0 < q) by (eapply Qlt_le_trans; [apply pow2_pos | exact H]).
  destruct (binade_spec q Hq) as [_ Bhi].
  assert (Hlt : (k < Py.binade q + 1)%Z).
  { apply pow2_lt_inv. eapply Qle_lt_trans; [exact H | exact Bhi]. }
  lia.
Qed.

(** *** Rounding to the nearest integer *)

Lemma round_half_even_comp (q q' : Q) : q == q' -> Py.round_half_even q = Py.round_half_even q'.
Proof.
  intros H. unfold Py.round_half_even.
  rewrite (Qfloor_comp q q' H).
  assert (E : Qcompare (q - inject_Z (Qfloor q')) (1 # 2)
              = Qcompare (q' - inject_Z (Qfloor q')) (1 # 2)).
  { apply Qcompare_comp; [now rewrite H | reflexivity]. }
  now rewrite E.
Qed.

Lemma round_half_even_cases (x : Q) :
  Py.round_half_even x = Qfloor x \/ Py.round_half_even x = (Qfloor x + 1)%Z.
Proof.
  unfold Py.round_half_even.
  destruct (Qcompare (x - inject_Z (Qfloor x)) (1 # 2));
    [destruct (Z.even (Qfloor x)) | |]; auto.
Qed.

Lemma round_half_even_whole (z : Z) : Py.round_half_even (inject_Z z) = z.
Proof.
  unfold Py.round_half_even. rewrite Qfloor_Z.
  assert (E : Qcompare (inject_Z z - inject_Z z) (1 # 2) = Lt).
  { transitivity (Qcompare 0 (1 # 2)); [| reflexivity].
    apply Qcompare_comp; [apply Qplus_opp_r | reflexivity]. }
  now rewrite E.
Qed.

Lemma round_half_even_ge (x : Q) (n : Z) :
  inject_Z n <= x -> (n <= Py.round_half_even x)%Z.
Proof.
  intros H. apply Qfloor_resp_le in H. rewrite Qfloor_Z in H.
  destruct (round_half_even_cases x) as [-> | ->]; lia.
Qed.

Lemma round_half_even_le (x : Q) (n : Z) :
  x <= inject_Z n -> (Py.round_half_even x <= n)%Z.
Proof.
  intros H. pose proof (Qfloor_resp_le _ _ H) as Hf. rewrite Qfloor_Z in Hf.
  destruct (Z.eq_dec (Qfloor x) n) as [E | Hne].
  - assert (Hx : x == inject_Z n).
    { apply Qle_antisym; [exact H |]. rewrite <- E. apply Qfloor_le. }
    rewrite (round_half_even_comp _ _ Hx), round_half_even_whole. lia.
  - destruct (round_half_even_cases x) as [-> | ->]; lia.
Qed.

Lemma round_half_even_mono (x y : Q) :
  x <= y -> (Py.round_half_even x <= Py.round_half_even y)%Z.
Proof.
  intros H. pose proof (Qfloor_resp_le _ _ H) as Hf.
  destruct (Z.eq_dec (Qfloor x) (Qfloor y)) as [E | Hne].
  - unfold Py.round_half_even. rewrite E.
    destruct (Qcompare (x - inject_Z (Qfloor y)) (1 # 2)) eqn:Cx;
      destruct (Qcompare (y - inject_Z (Qfloor y)) (1 # 2)) eqn:Cy;
      try (destruct (Z.even (Qfloor y))); try lia; exfalso;
      repeat match goal with
      | C : Qcompare _ _ = Eq |- _ => apply Qeq_alt in C
      | C : Qcompare _ _ = Lt |- _ => apply Qlt_alt in C
      | C : Qcompare _ _ = Gt |- _ => apply Qgt_alt in C
      end;
      set (f := inject_Z (Qfloor y)) in *; clearbody f; lra.
  - destruct (round_half_even_cases x) as [-> | ->];
      destruct (round_half_even_cases y) as [-> | ->]; lia.
Qed.

(** *** Rounding to binary64 *)

Lemma binary64_value (q : Q) :
  Py.binary64 q == inject_Z (Py.round_half_even (q / Py.ulp q)) * Py.ulp q.
Proof. apply Qred_correct. Qed.

Lemma ulp_pos (q : Q) : 0 < Py.ulp q.
Proof. apply pow2_pos. Qed.

Lemma ulp_normal (q : Q) :
  Py.pow2 (-1022) <= q -> Py.ulp q = Py.pow2 (Py.binade q - 52).
Proof.
  intros H.
  assert (Hq : 0 < q) by (eapply Qlt_le_trans; [apply pow2_pos | exact H]).
  assert (Ha : Qabs q == q) by (apply Qabs_pos; now apply Qlt_le_weak).
  unfold Py.ulp. rewrite (binade_comp (Qabs q) q); [| now rewrite Ha | exact Ha].
  pose proof (binade_ge_pow2 q (-1022) H). f_equal. lia.
Qed.

Lemma binary64_zero (q : Q) : q == 0 -> Py.binary64 q = 0.
Proof.
  intros H. unfold Py.binary64.
  rewrite (round_half_even_comp (q / Py.ulp q) (inject_Z 0)).
  - rewrite round_half_even_whole. apply (Qred_complete _ 0). apply Qmult_0_l.
  - generalize (Py.ulp q). intros u. rewrite H. unfold Qdiv. apply Qmult_0_l.
Qed.

Lemma binary64_comp (q q' : Q) : q == q' -> Py.binary64 q = Py.binary64 q'.
Proof.
  intros H. destruct (Qeq_dec q 0) as [Z | NZ].
  - rewrite (binary64_zero q Z). symmetry. apply binary64_zero. now rewrite <- H.
  - assert (Hpos : 0 < Qabs q).
    { destruct (Qlt_le_dec 0 (Qabs q)) as [P | P]; [exact P |].
      exfalso. apply NZ. apply Qabs_Qle_condition in P. apply Qle_antisym; lra. }
    assert (Eu : Py.ulp q = Py.ulp q').
    { unfold Py.ulp. rewrite (binade_comp (Qabs q) (Qabs q')); [reflexivity | exact Hpos |].
      now rewrite H. }
    unfold Py.binary64. rewrite <- Eu.
    rewrite (round_half_even_comp (q / Py.ulp q) (q' / Py.ulp q)); [reflexivity |].
    generalize (Py.ulp q). intros u. now rewrite H.
Qed.

Lemma binary64_lower_binade (q : Q) :
  Py.pow2 (-1022) <= q -> Py.pow2 (Py.binade q) <= Py.binary64 q.
Proof.
  intros H.
  assert (Hq : 0 < q) by (eapply Qlt_le_trans; [apply pow2_pos | exact H]).
  destruct (binade_spec q Hq) as [Blo _].
  rewrite binary64_value, (ulp_normal q H).
  set (e := Py.binade q) in *. pose proof (pow2_pos (e - 52)) as Hu.
  assert (Hr : (2 ^ 52 <= Py.round_half_even (q / Py.pow2 (e - 52)))%Z).
  { apply round_half_even_ge. apply Qle_shift_div_l; [exact Hu |].
    rewrite <- pow2_whole by lia. rewrite <- pow2_add.
    now replace (52 + (e - 52))%Z with e by lia. }
  eapply Qle_trans; [| apply Qmult_le_r; [exact Hu |]; rewrite <- Zle_Qle; exact Hr].
  rewrite <- pow2_whole by lia. rewrite <- pow2_add.
  replace (52 + (e - 52))%Z with e by lia. apply Qle_refl.
Qed.

Lemma binary64_upper_binade (q : Q) :
  Py.pow2 (-1022) <= q -> Py.binary64 q <= Py.pow2 (Py.binade q + 1).
Proof.
  intros H.
  assert (Hq : 0 < q) by (eapply Qlt_le_trans; [apply pow2_pos | exact H]).
  destruct (binade_spec q Hq) as [_ Bhi].
  rewrite binary64_value, (ulp_normal q H).
  set (e := Py.binade q) in *. pose proof (pow2_pos (e - 52)) as Hu.
  assert (Hr : (Py.round_half_even (q / Py.pow2 (e - 52)) <= 2 ^ 53)%Z).
  { apply round_half_even_le. apply Qle_shift_div_r; [exact Hu |].
    rewrite <- pow2_whole by lia. rewrite <- pow2_add.
    replace (53 + (e - 52))%Z with (e + 1)%Z by lia. now apply Qlt_le_weak. }
  eapply Qle_trans; [apply Qmult_le_r; [exact Hu |]; rewrite <- Zle_Qle; exact Hr |].
  rewrite <- pow2_whole by lia. rewrite <- pow2_add.
  replace (53 + (e - 52))%Z with (e + 1)%Z by lia. apply Qle_refl.
Qed.

(** Rounding keeps the order (stated for the normal range). *)
Lemma binary64_mono (x y : Q) :
  Py.pow2 (-1022) <= x -> x <= y -> Py.binary64 x <= Py.binary64 y.
Proof.
  intros Hx Hxy.
  assert (Hy : Py.pow2 (-1022) <= y) by (eapply Qle_trans; eassumption).
  assert (Hx0 : 0 < x) by (eapply Qlt_le_trans; [apply pow2_pos | exact Hx]).
  pose proof (binade_le x y Hx0 Hxy) as Hb.
  destruct (Z.eq_dec (Py.binade x) (Py.binade y)) as [E | Hne].
  - rewrite !binary64_value, (ulp_normal x Hx), (ulp_normal y Hy), E.
    pose proof (pow2_pos (Py.binade y - 52)) as Hu.
    apply Qmult_le_r; [exact Hu |]. rewrite <- Zle_Qle.
    apply round_half_even_mono. apply Qmult_le_r; [now apply Qinv_lt_0_compat | exact Hxy].
  - eapply Qle_trans; [apply (binary64_upper_binade x Hx) |].
    eapply Qle_trans; [| apply (binary64_lower_binade y Hy)].
    apply pow2_le. lia.
Qed.

Lemma binary64_ge_pow2 (q : Q) (k : Z) :
  (-1022 <= k)%Z -> Py.pow2 k <= q -> Py.pow2 k <= Py.binary64 q.
Proof.
  intros Hk H.
  assert (Hq : Py.pow2 (-1022) <= q) by (eapply Qle_trans; [apply pow2_le; exact Hk | exact H]).
  eapply Qle_trans; [| apply (binary64_lower_binade q Hq)].
  apply pow2_le. now apply binade_ge_pow2.
Qed.

(** *** Numbers that binary64 holds exactly *)

Lemma Qabs_scaled (m e : Z) :
  Qabs (inject_Z m * Py.pow2 e) == inject_Z (Z.abs m) * Py.pow2 e.
Proof.
  rewrite Qabs_Qmult. rewrite (Qabs_pos (Py.pow2 e)) by (apply Qlt_le_weak, pow2_pos).
  apply Qmult_comp; [| reflexivity]. unfold Qabs, inject_Z. reflexivity.
Qed.

Lemma binary64_exact (q : Q) : representable q -> Py.binary64 q == q.
Proof.
  intros (m & e & Hm & He & Hq).
  destruct (Z.eq_dec m 0) as [-> | Hm0].
  - rewrite binary64_zero; [| rewrite Hq; apply Qmult_0_l].
    rewrite Hq. symmetry. apply Qmult_0_l.
  - rewrite (binary64_comp q (inject_Z m * Py.pow2 e) Hq), Hq.
    set (x := inject_Z m * Py.pow2 e).
    assert (Hax : Qabs x == inject_Z (Z.abs m) * Py.pow2 e) by apply Qabs_scaled.
    assert (Hpos : 0 < Qabs x).
    { rewrite Hax. apply Qmult_lt_0_compat; [| apply pow2_pos].
      change 0 with (inject_Z 0). rewrite <- Zlt_Qlt. lia. }
    destruct (binade_spec (Qabs x) Hpos) as [Blo _].
    assert (Hb : (Py.binade (Qabs x) < 53 + e)%Z).
    { apply pow2_lt_inv. eapply Qle_lt_trans; [exact Blo |].
      rewrite Hax, pow2_add. apply Qmult_lt_r; [apply pow2_pos |].
      rewrite pow2_whole by lia. now rewrite <- Zlt_Qlt. }
    rewrite binary64_value. unfold Py.ulp.
    set (u := Z.max (Py.binade (Qabs x) - 52) (-1074)).
    assert (Hu : (u <= e)%Z) by lia.
    assert (Hdiv : x / Py.pow2 u == inject_Z (m * 2 ^ (e - u))).
    { unfold x. rewrite inject_Z_mult, <- pow2_whole by lia.
      rewrite pow2_sub. field. apply pow2_nonzero. }
    rewrite (round_half_even_comp _ _ Hdiv), round_half_even_whole.
    unfold x. rewrite inject_Z_mult, <- pow2_whole by lia.
    rewrite pow2_sub. field. apply pow2_nonzero.
Qed.

Lemma representable_whole (n : Z) : (Z.abs n < 2 ^ 53)%Z -> representable (inject_Z n).
Proof.
  intros H. exists n, 0%Z. repeat split; try lia.
  symmetry. apply Qmult_1_r.
Qed.

Lemma representable_comp (q q' : Q) : q == q' -> representable q -> representable q'.
Proof.
  intros H (m & e & Hm & He & Hq). exists m, e. repeat split; try lia.
  now rewrite <- H.
Qed.

(** A number of at least 1024 that binary64 holds is divided by 1024
    without rounding. *)
Lemma representable_div_1024 (q : Q) :
  representable q -> 1024 <= q -> representable (q / 1024).
Proof.
  intros (m & e & Hm & He & Hq) Hge.
  assert (Hlo : (-43 < e)%Z).
  { assert (Hlt : Py.pow2 10 < Py.pow2 (53 + e)).
    { eapply Qle_lt_trans; [exact Hge |]. rewrite Hq, pow2_add.
      apply Qmult_lt_r; [apply pow2_pos |].
      rewrite pow2_whole by lia. rewrite <- Zlt_Qlt. lia. }
    apply pow2_lt_inv in Hlt. lia. }
  exists m, (e - 10)%Z. repeat split; try lia.
  rewrite Hq, pow2_sub. change (Py.pow2 10) with 1024. field.
Qed.

Lemma binary64_div_1024 (q : Q) :
  representable q -> 1024 <= q -> Py.binary64 (q / 1024) == q / 1024.
Proof. intros H Hge. now apply binary64_exact, representable_div_1024. Qed.

End Binary64.

(** ** The size formatter *)

Section GetSize.

#[local] Open Scope Q_scope.

Lemma below_factor (q : Q) : negb (Qle_bool factor q) = true <-> q < factor.
Proof.
  rewrite negb_true_iff, <- not_true_iff_false, Qle_bool_iff.
  split; [apply Qnot_le_lt | apply Qlt_not_le].
Qed.

Lemma not_below_factor (q : Q) : negb (Qle_bool factor q) = false <-> factor <= q.
Proof. rewrite negb_false_iff. apply Qle_bool_iff. Qed.

(** The rendering depends on the value of a number, not on the fraction
    that stands for it. *)
Lemma format_2f_comp (q q' : Q) : q == q' -> Py.format_2f q = Py.format_2f q'.
Proof.
  intros H. unfold Py.format_2f. rewrite (binary64_comp q q' H).
  assert (E : Qle_bool 0 q = Qle_bool 0 q') by (now rewrite H).
  now rewrite E.
Qed.

Lemma get_size_loop_comp (us : list string) (q q' : Q) (s : string) :
  q == q' -> get_size_loop us q s = get_size_loop us q' s.
Proof.
  revert q q'. induction us as [| u us IH]; intros q q' H; cbn [get_size_loop];
    [reflexivity |].
  assert (E : Qle_bool factor q = Qle_bool factor q') by (now rewrite H).
  rewrite E, (format_2f_comp q q' H).
  rewrite (binary64_comp (q / factor) (q' / factor)) by (now rewrite H).
  reflexivity.
Qed.

Lemma pow2_10 : Py.pow2 10 == factor.
Proof. reflexivity. Qed.

(** A value of at least 1024 to the number of units left passes every
    test: the loop is exhausted. *)
Lemma get_size_loop_exhausted (us : list string) (v : Q) (s : string) :
  Py.pow2 (10 * Z.of_nat (List.length us)) <= v -> get_size_loop us v s = None.
Proof.
  revert v. induction us as [| u us IH]; intros v H; cbn [get_size_loop]; [reflexivity |].
  cbn [List.length] in H. rewrite Nat2Z.inj_succ in H.
  replace (10 * Z.succ (Z.of_nat (List.length us)))%Z
    with (10 * Z.of_nat (List.length us) + 10)%Z in H by lia.
  rewrite pow2_add, pow2_10 in H.
  set (k := (10 * Z.of_nat (List.length us))%Z) in *.
  assert (Hk : (0 <= k)%Z) by lia.
  assert (Hone : 1 <= Py.pow2 k).
  { change 1 with (Py.pow2 0). now apply pow2_le. }
  assert (Hv : factor <= v).
  { eapply Qle_trans; [| exact H]. rewrite <- (Qmult_1_l factor) at 1.
    apply Qmult_le_r; [reflexivity | exact Hone]. }
  apply not_below_factor in Hv. rewrite Hv.
  apply IH. fold k. apply binary64_ge_pow2; [lia |].
  apply Qle_shift_div_l; [reflexivity | exact H].
Qed.

(** From 1024^6 on, nothing is returned. *)
Lemma get_size_None_from_exbi (q : Q) (suffix : string) :
  exbi <= q -> get_size q suffix = None.
Proof. intros H. apply get_size_loop_exhausted. exact H. Qed.

End GetSize.

(** C1 (as the code has it).  [get_size(0)] is ["0.00B"], [get_size(1023)]
    is ["1023.00B"], [get_size(1024)] is ["1.00KB"] and
    [get_size(1024*1024)] is ["1.00MB"]: the unit symbol is followed by
    the suffix, also above the first unit. *)
Theorem get_size_test_vectors :
  get_size_B 0 = Some "0.00B"
  /\ get_size_B 1023 = Some "1023.00B"
  /\ get_size_B 1024 = Some "1.00KB"
  /\ get_size_B (1024 * 1024) = Some "1.00MB".
Proof. vm_compute. repeat split. Qed.

(** C1, the vectors as the specification writes them: [get_size(1024)]
    is not ["1.00K"] and [get_size(1024*1024)] is not ["1.00M"]. *)
Lemma get_size_1024_is_not_1K :
  ~ (get_size_B 0 = Some "0.00B"
     /\ get_size_B 1023 = Some "1023.00B"
     /\ get_size_B 1024 = Some "1.00K"
     /\ get_size_B (1024 * 1024) = Some "1.00M").
Proof. vm_compute. intros (_ & _ & H & _). discriminate H. Qed.

(** C2, at 1024^6 bytes: the loop is exhausted, no [return] is reached
    and the function yields [None], where its signature and docstring
    promise a string. *)
Theorem get_size_exbibyte_is_None :
  get_size_B (1024 * 1024 * 1024 * 1024 * 1024 * 1024) = None.
Proof. vm_compute. reflexivity. Qed.

Example get_size_largest_rendered :
  get_size_B (1024 * 1024 * 1024 * 1024 * 1024 * 1024 - 65) = Some "1024.00PB"
  /\ get_size_B (1024 * 1024 * 1024 * 1024 * 1024 * 1024 - 64) = None.
Proof. vm_compute. split; reflexivity. Qed.

(** ** Computations and their traces *)

Section Traces.

Context {A B : Type}.

Lemma trace_bind (m : io A) (k : A -> io B) :
  trace (bind m k)
  = match result m with
    | Returned a => (trace m ++ trace (k a))%list
    | Raised _ => trace m
    end.
Proof.
  destruct m as [t [a | e]]; simpl; [destruct (k a) |]; reflexivity.
Qed.

Lemma result_bind (m : io A) (k : A -> io B) :
  result (bind m k)
  = match result m with
    | Returned a => result (k a)
    | Raised e => Raised e
    end.
Proof.
  destruct m as [t [a | e]]; simpl; [destruct (k a) |]; reflexivity.
Qed.

Lemma bind_ret (a : A) (k : A -> io B) : bind (ret a) k = k a.
Proof. unfold bind, ret. now destruct (k a). Qed.

Lemma bind_returned (t : list event) (a : A) (k : A -> io B) :
  bind (t, Returned a) k = ((t ++ trace (k a))%list, result (k a)).
Proof. unfold bind, trace, result. now destruct (k a). Qed.

End Traces.

Lemma io_eta {A} (m : io A) : m = (trace m, result m).
Proof. now destruct m. Qed.

Lemma bind_assoc {A B C} (m : io A) (k : A -> io B) (h : B -> io C) :
  bind (bind m k) h = bind m (fun a => bind (k a) h).
Proof.
  destruct m as [t [a | e]]; simpl; [| reflexivity].
  destruct (k a) as [t1 [b | e1]]; simpl; [| reflexivity].
  destruct (h b) as [t2 r2]. now rewrite app_assoc.
Qed.

Lemma console_app (t1 t2 : list event) :
  console (t1 ++ t2) = (console t1 ++ console t2)%list.
Proof.
  induction t1 as [| [s | s] t1 IH]; simpl; [reflexivity | now rewrite IH | exact IH].
Qed.

Lemma log_app (t1 t2 : list event) : log (t1 ++ t2) = (log t1 ++ log t2)%list.
Proof.
  induction t1 as [| [s | s] t1 IH]; simpl; [reflexivity | exact IH | now rewrite IH].
Qed.

Section ForEach.

Context {A : Type}.
Variable body : A -> io unit.

Lemma for_each_app (l1 l2 : list A) :
  for_each body (l1 ++ l2) = (for_each body l1 ;; for_each body l2).
Proof.
  induction l1 as [| x l1 IH].
  - symmetry. exact (bind_ret tt (fun _ => for_each body l2)).
  - cbn [app for_each]. now rewrite IH, bind_assoc.
Qed.

Lemma for_each_ext (body' : A -> io unit) (l : list A) :
  (forall x, In x l -> body x = body' x) ->
  for_each body l = for_each body' l.
Proof.
  induction l as [| x l IH]; simpl; intros H; [reflexivity |].
  rewrite (H x (or_introl eq_refl)), IH; [reflexivity |].
  intros y Hy. apply H. now right.
Qed.

(** A loop whose body always returns runs to its end, and its trace
    is the bodies' traces one after the other. *)
Lemma for_each_returns (l : list A) :
  (forall x, In x l -> result (body x) = Returned tt) ->
  for_each body l = (flat_map (fun x => trace (body x)) l, Returned tt).
Proof.
  induction l as [| x l IH]; simpl; intros H; [reflexivity |].
  rewrite IH by (intros y Hy; apply H; now right).
  rewrite (io_eta (body x)), (H x (or_introl eq_refl)). reflexivity.
Qed.

End ForEach.

(** ** Memory and swap *)

Lemma sswap_is_true (s : sswap) : truth (sswap_tuple s) = true.
Proof. reflexivity. Qed.

(** Running a computation whose shape is known, leaving the rendered
    values alone. *)
Ltac run_io :=
  cbn [bind ret raise print print3 logging_info print_log trace result
       fst snd app for_each getattr console log].

(** Whatever the readings, the log of [ram_info] has the memory lines
    and then the swap section. *)
Lemma ram_info_log (self : ResourceMonitor) :
  log (trace (ram_info self))
  = [ "Информация об ОЗУ";
      "Объем ОЗУ: " ++ size (inject_Z (mem_total (svmemory self)));
      "Доступно ОЗУ: " ++ size (inject_Z (mem_available (svmemory self)));
      "Используется ОЗУ: " ++ size (inject_Z (mem_used (svmemory self)));
      "Процент ОЗУ: " ++ size (Py.tenths_value (mem_percent (svmemory self)));
      "Информация о памяти подкачки";
      "Объем памяти подкачки: " ++ size (inject_Z (swap_total (swap self)));
      "Свободно памяти подкачки: " ++ size (inject_Z (swap_free (swap self)));
      "Используется памяти подкачки: " ++ size (inject_Z (swap_used (swap self)));
      "Процент памяти подкачки: " ++ Py.str_tenths (swap_percent (swap self)) ++ "%" ].
Proof.
  unfold ram_info. rewrite sswap_is_true. unfold swap_lines. run_io. reflexivity.
Qed.

(** C3, on a host whose swap readings are all zero: [if self.swap:]
    tests a named tuple of six fields, which is true whatever the fields
    hold, so the swap header and the four swap lines are written, with
    zeros. *)
Theorem ram_info_zero_swap_is_printed :
  swap_total (swap (init Sample.host)) = 0%Z
  /\ console (trace (ram_info (init Sample.host)))
     = [ "========== Информация об ОЗУ ==========";
         "Объем ОЗУ: 8.00GB";
         "Доступно ОЗУ: 8.00GB";
         "Используется ОЗУ: 0.00B";
         "Процент ОЗУ: 45.30B";
         "===== Информация о памяти подкачки =====";
         "Объем памяти подкачки: 0.00B";
         "Свободно памяти подкачки: 0.00B";
         "Используется памяти подкачки: 0.00B";
         "Процент памяти подкачки: 0.0%" ].
Proof. split; vm_compute; reflexivity. Qed.

(** ** The processor *)

(** C8, on every host without a frequency reading: the constructor
    keeps [None] in [cpufreq], and [proc_info] writes the two core
    counts and then raises [AttributeError] at [self.cpufreq.max]; no
    frequency line and no load line is written. *)
Theorem proc_info_without_frequency (w : World) :
  psutil_cpu_freq w = None ->
  cpufreq (init w) = None
  /\ proc_info (init w) w = (core_count_events w, Raised AttributeError).
Proof.
  intros H. split; [exact H |].
  unfold proc_info. cbn [cpufreq init]. rewrite H. reflexivity.
Qed.

Lemma proc_info_without_frequency_witness :
  psutil_cpu_freq Sample.host_no_freq = None
  /\ result (proc_info (init Sample.host_no_freq) Sample.host_no_freq)
     = Raised AttributeError.
Proof.
  split; [reflexivity |].
  now rewrite (proj2 (proc_info_without_frequency Sample.host_no_freq eq_refl)).
Defined.

(** ** The disks *)

Lemma disk_partition_denied (w : World) (p : sdiskpart) :
  psutil_disk_usage w (mountpoint p) = inl PermissionError ->
  disk_partition w p = (partition_identity p, Returned tt).
Proof.
  intros H. unfold disk_partition, disk_usage. rewrite H. reflexivity.
Qed.

Lemma disk_partition_measured (w : World) (p : sdiskpart) (u : sdiskusage) :
  psutil_disk_usage w (mountpoint p) = inr u ->
  disk_partition w p
  = ((partition_identity p ++ trace (disk_usage_lines p u))%list, Returned tt).
Proof.
  intros H. unfold disk_partition, disk_usage. rewrite H. reflexivity.
Qed.

Lemma disk_partition_other_error (w : World) (p : sdiskpart) (e : exn) :
  psutil_disk_usage w (mountpoint p) = inl e -> e <> PermissionError ->
  disk_partition w p = (partition_identity p, Raised e).
Proof.
  intros H He. unfold disk_partition, disk_usage. rewrite H.
  destruct e; [reflexivity | now elim He | reflexivity | reflexivity].
Qed.

Lemma disk_info_loop (self : ResourceMonitor) (w : World) :
  disk_info self w
  = ((disk_header ++ trace (for_each (disk_partition w) (partitions self)))%list,
     result (for_each (disk_partition w) (partitions self))).
Proof.
  unfold disk_info. run_io.
  now destruct (for_each (disk_partition w) (partitions self)).
Qed.

(** C4.  When the usage query of a partition raises [PermissionError],
    that partition contributes its header and its file-system line and
    nothing else, and the loop goes on with the partitions after it:
    the trace of [disk_info] is the header, what the partitions before
    wrote, these identity events, and what the partitions after write;
    it ends the way the loop over the partitions after ends. *)
Theorem disk_info_skips_denied_partition
    (self : ResourceMonitor) (w : World)
    (before : list sdiskpart) (p : sdiskpart) (after : list sdiskpart) :
  partitions self = (before ++ p :: after)%list ->
  result (for_each (disk_partition w) before) = Returned tt ->
  psutil_disk_usage w (mountpoint p) = inl PermissionError ->
  disk_partition w p = (partition_identity p, Returned tt)
  /\ disk_info self w
     = ((disk_header ++ trace (for_each (disk_partition w) before)
           ++ partition_identity p
           ++ trace (for_each (disk_partition w) after))%list,
        result (for_each (disk_partition w) after)).
Proof.
  intros Hparts Hbefore Hdenied.
  pose proof (disk_partition_denied w p Hdenied) as Hp.
  split; [exact Hp |].
  rewrite disk_info_loop, Hparts, for_each_app.
  rewrite (io_eta (for_each (disk_partition w) before)), Hbefore.
  rewrite bind_returned. cbn [for_each]. rewrite Hp, bind_returned.
  reflexivity.
Qed.

Lemma disk_info_skips_denied_partition_witness :
  console (trace (disk_info (init Sample.host) Sample.host))
  = [ "========== Информация о дисках ==========";
      "===== Информация о разделе диска: /dev/sda1 =====";
      "Файловая система раздела диска /dev/sda1: ext4";
      "Общий обьем раздела диска /dev/sda1: 100.00GB";
      "Используемый обьем раздела диска /dev/sda1: 40.00GB";
      "Свободный обьем раздела диска /dev/sda1: 60.00GB";
      "Процент объема раздела диска /dev/sda1: 40.00B";
      "===== Информация о разделе диска: /dev/sr0 =====";
      "Файловая система раздела диска /dev/sr0: iso9660";
      "===== Информация о разделе диска: /dev/sdb1 =====";
      "Файловая система раздела диска /dev/sdb1: ext4";
      "Общий обьем раздела диска /dev/sdb1: 100.00GB";
      "Используемый обьем раздела диска /dev/sdb1: 40.00GB";
      "Свободный обьем раздела диска /dev/sdb1: 60.00GB";
      "Процент объема раздела диска /dev/sdb1: 40.00B" ].
Proof.
  rewrite (proj2 (disk_info_skips_denied_partition
                    (init Sample.host) Sample.host
                    [Sample.sda1] Sample.sr0 [Sample.sdb1]
                    eq_refl eq_refl eq_refl)).
  vm_compute. reflexivity.
Defined.

(** When no usage query fails for another reason than permissions, the
    method runs to its end. *)
Lemma disk_info_returns (self : ResourceMonitor) (w : World) :
  (forall p, In p (partitions self) ->
     psutil_disk_usage w (mountpoint p) = inl PermissionError
     \/ exists u, psutil_disk_usage w (mountpoint p) = inr u) ->
  result (disk_info self w) = Returned tt.
Proof.
  intros H. rewrite disk_info_loop. cbn [result snd].
  rewrite for_each_returns; [reflexivity |].
  intros p Hp. destruct (H p Hp) as [E | [u E]].
  - now rewrite disk_partition_denied.
  - now rewrite (disk_partition_measured w p u).
Qed.

(** ** Frozen and live readings *)

(** C5 (as the code has it).  What the constructor stored (identity,
    frequencies, memory, swap, the partition list, the interface
    addresses, the network counters) is frozen: two calls of a method on
    the same collector write the same events whatever has happened to
    those readings on the host in between.  The core counts, the load
    percentages and the disk usage are read from the host at each call;
    the two calls agree when these readings are the same. *)
Theorem queries_agree_on_same_live_readings
    (d : domain) (self : ResourceMonitor) (w1 w2 : World) :
  same_live_readings self w1 w2 ->
  query d self w1 = query d self w2.
Proof.
  intros (Hcount & Hpercpu & Htotal & Husage).
  destruct d; cbn [query]; try reflexivity.
  - unfold proc_info. now rewrite !Hcount, Hpercpu, Htotal.
  - rewrite !disk_info_loop.
    rewrite (for_each_ext (disk_partition w1) (disk_partition w2)); [reflexivity |].
    intros p Hp. unfold disk_partition, disk_usage. now rewrite (Husage p Hp).
Qed.

Lemma queries_agree_on_same_live_readings_witness :
  query Memory (init Sample.host) Sample.host
  = query Memory (init Sample.host) Sample.host_no_freq
  /\ query Disk (init Sample.host) Sample.host
     = query Disk (init Sample.host) Sample.host_no_freq.
Proof.
  assert (H : same_live_readings (init Sample.host) Sample.host Sample.host_no_freq).
  { repeat split; reflexivity. }
  split.
  - exact (queries_agree_on_same_live_readings Memory _ _ _ H).
  - exact (queries_agree_on_same_live_readings Disk _ _ _ H).
Defined.

(** C5, as the specification writes it: the same collector, asked for
    its disks twice while the disk fills up, writes different usage
    figures; the usage is read at the call, not at construction. *)
Lemma disk_info_is_not_frozen :
  init Sample.host_later = init Sample.host
  /\ query Disk (init Sample.host) Sample.host
     <> query Disk (init Sample.host) Sample.host_later.
Proof.
  split; [reflexivity |].
  vm_compute. intros H. discriminate H.
Qed.

(** ** Percentages *)

Lemma disk_info_with_measured_partition
    (self : ResourceMonitor) (w : World)
    (before : list sdiskpart) (p : sdiskpart) (after : list sdiskpart) (u : sdiskusage) :
  partitions self = (before ++ p :: after)%list ->
  result (for_each (disk_partition w) before) = Returned tt ->
  psutil_disk_usage w (mountpoint p) = inr u ->
  disk_info self w
  = ((disk_header ++ trace (for_each (disk_partition w) before)
        ++ (partition_identity p ++ trace (disk_usage_lines p u))
        ++ trace (for_each (disk_partition w) after))%list,
     result (for_each (disk_partition w) after)).
Proof.
  intros Hparts Hbefore Hu.
  rewrite disk_info_loop, Hparts, for_each_app.
  rewrite (io_eta (for_each (disk_partition w) before)), Hbefore.
  rewrite bind_returned. cbn [for_each].
  rewrite (disk_partition_measured w p u Hu), bind_returned. reflexivity.
Qed.

(** C6.  The percentage of the memory and the percentage of a partition
    are written through [get_size] (default suffix ["B"]), the
    percentage of the swap as the number itself followed by ["%"]:
    these are the fifth and the tenth message of [ram_info], and, for a
    partition whose usage is read, the last of the six messages that
    [disk_info] logs for it, between what it logs for the partitions
    before and after. *)
Theorem percent_rendering
    (self : ResourceMonitor) (w : World)
    (before : list sdiskpart) (p : sdiskpart) (after : list sdiskpart) (u : sdiskusage) :
  partitions self = (before ++ p :: after)%list ->
  result (for_each (disk_partition w) before) = Returned tt ->
  psutil_disk_usage w (mountpoint p) = inr u ->
  nth_error (log (trace (ram_info self))) 4
  = Some ("Процент ОЗУ: "
            ++ Py.str_opt id (get_size (Py.tenths_value (mem_percent (svmemory self))) "B"))
  /\ nth_error (log (trace (ram_info self))) 9
     = Some ("Процент памяти подкачки: "
               ++ Py.str_tenths (swap_percent (swap self)) ++ "%")
  /\ log (trace (disk_info self w))
     = ("Информация о дисках"
          :: log (trace (for_each (disk_partition w) before))
          ++ [ ("Информация о разделе диска: " ++ device p)%string;
               ("Файловая система раздела диска " ++ device p ++ ": "
                  ++ fstype p)%string;
               ("Общий обьем раздела диска " ++ device p ++ ": "
                  ++ Py.str_opt id (get_size (inject_Z (du_total u)) "B"))%string;
               ("Используемый обьем раздела диска " ++ device p ++ ": "
                  ++ Py.str_opt id (get_size (inject_Z (du_used u)) "B"))%string;
               ("Свободный обьем раздела диска " ++ device p ++ ": "
                  ++ Py.str_opt id (get_size (inject_Z (du_free u)) "B"))%string;
               ("Процент объема раздела диска " ++ device p ++ ": "
                  ++ Py.str_opt id
                       (get_size (Py.tenths_value (du_percent u)) "B"))%string ]
          ++ log (trace (for_each (disk_partition w) after)))%list.
Proof.
  intros Hparts Hbefore Hu.
  rewrite ram_info_log, (disk_info_with_measured_partition self w before p after u)
    by assumption.
  repeat split. cbn [trace fst]. rewrite !log_app. reflexivity.
Qed.

Lemma percent_rendering_witness :
  nth_error (log (trace (ram_info (init Sample.host)))) 4 = Some "Процент ОЗУ: 45.30B"
  /\ nth_error (log (trace (ram_info (init Sample.host)))) 9
     = Some "Процент памяти подкачки: 0.0%"
  /\ log (trace (disk_info (init Sample.host) Sample.host))
     = [ "Информация о дисках";
         "Информация о разделе диска: /dev/sda1";
         "Файловая система раздела диска /dev/sda1: ext4";
         "Общий обьем раздела диска /dev/sda1: 100.00GB";
         "Используемый обьем раздела диска /dev/sda1: 40.00GB";
         "Свободный обьем раздела диска /dev/sda1: 60.00GB";
         "Процент объема раздела диска /dev/sda1: 40.00B";
         "Информация о разделе диска: /dev/sr0";
         "Файловая система раздела диска /dev/sr0: iso9660";
         "Информация о разделе диска: /dev/sdb1";
         "Файловая система раздела диска /dev/sdb1: ext4";
         "Общий обьем раздела диска /dev/sdb1: 100.00GB";
         "Используемый обьем раздела диска /dev/sdb1: 40.00GB";
         "Свободный обьем раздела диска /dev/sdb1: 60.00GB";
         "Процент объема раздела диска /dev/sdb1: 40.00B" ].
Proof.
  destruct (percent_rendering (init Sample.host) Sample.host
              [Sample.sda1; Sample.sr0] Sample.sdb1 []
              {| du_total := (100 * Sample.GiB)%Z; du_used := (40 * Sample.GiB)%Z;
                 du_free := (100 * Sample.GiB - 40 * Sample.GiB)%Z;
                 du_percent := 400%N |} eq_refl eq_refl eq_refl) as (H1 & H2 & H3).
  rewrite H1, H2, H3. vm_compute. repeat split.
Defined.

(** ** The network *)

Lemma for_each_print_log {A} (text : A -> string) (l : list A) :
  for_each (fun x => print_log (text x)) l
  = (flat_map (fun x => print_log_events (text x)) l, Returned tt).
Proof.
  rewrite for_each_returns; [reflexivity | reflexivity].
Qed.

Lemma network_address_events (inteface_name : string) (addr : snicaddr) :
  network_address inteface_name addr
  = ((interface_header inteface_name
        ++ flat_map (fun f => print_log_events (render f))
             (address_facts inteface_name addr))%list,
     Returned tt).
Proof.
  unfold network_address. rewrite for_each_print_log. reflexivity.
Qed.

Lemma address_facts_shape (inteface_name : string) (addr : snicaddr) :
  address_facts inteface_name addr
  = [ ("Тип интерфейса сети " ++ inteface_name ++ ": ", Py.str_enum (family addr));
      (address_label (classify (Py.str_enum (family addr))) inteface_name,
        address addr);
      ("Сетевая маска интерфейса сети " ++ inteface_name ++ ": ",
        Py.str_opt id (netmask addr));
      ("Широковещательный IP-адрес интерфейса сети " ++ inteface_name ++ ": ",
        Py.str_opt id (broadcast addr)) ].
Proof.
  unfold address_facts, classify.
  destruct (String.eqb (Py.str_enum (family addr)) "AddressFamily.AF_INET");
    [reflexivity |].
  destruct (String.eqb (Py.str_enum (family addr)) "AddressFamily.AF_PACKET");
    reflexivity.
Qed.

(** The text of a number is not the name of a family. *)
Lemma number_is_no_family_name (z : Z) : classify (Py.str_Z z) = Other.
Proof.
  unfold classify, Py.str_Z.
  destruct z as [| p | p]; cbn [Z.to_int]; [reflexivity | |];
    unfold NilZero.string_of_int, NilZero.string_of_uint;
    destruct (Pos.to_uint p); reflexivity.
Qed.

(** Where the members of the enumeration print as numbers, every
    address, the IPv4 ones included, goes through the last branch. *)
Lemma address_facts_when_family_prints_as_int
    (inteface_name : string) (addr : snicaddr) :
  Py.prints_as_int (family addr) = true ->
  address_facts inteface_name addr
  = [ ("Тип интерфейса сети " ++ inteface_name ++ ": ",
        Py.str_Z (Py.enum_value (family addr)));
      ("MAC-адрес интерфейса сети " ++ inteface_name ++ ": ", address addr);
      ("Сетевая маска интерфейса сети " ++ inteface_name ++ ": ",
        Py.str_opt id (netmask addr));
      ("Широковещательный IP-адрес интерфейса сети " ++ inteface_name ++ ": ",
        Py.str_opt id (broadcast addr)) ].
Proof.
  intros H. rewrite address_facts_shape. unfold Py.str_enum. rewrite H.
  now rewrite number_is_no_family_name.
Qed.

(** C7, on an interface with an IPv4 address.  Under Python 3.11 or
    later [str(address.family)] is "2", no comparison of [network_info]
    succeeds, and the IPv4 address is written under the MAC label, like
    the link-layer address beside it.  Under Python up to 3.10 the IPv4
    address gets the IP label, and an IPv6 address, which falls in the
    third class, gets the MAC label of the second. *)
Theorem ipv4_address_under_mac_label :
  log (trace (network_info (Python311.on_eth0 [Python311.eth0_inet; Python311.eth0_packet])))
  = [ "Информация о сети";
      "Информация о интерфейсе сети: eth0";
      "Тип интерфейса сети eth0: 2";
      "MAC-адрес интерфейса сети eth0: 192.168.1.10";
      "Сетевая маска интерфейса сети eth0: 255.255.255.0";
      "Широковещательный IP-адрес интерфейса сети eth0: 192.168.1.255";
      "Информация о интерфейсе сети: eth0";
      "Тип интерфейса сети eth0: 17";
      "MAC-адрес интерфейса сети eth0: aa:bb:cc:dd:ee:ff";
      "Сетевая маска интерфейса сети eth0: None";
      "Широковещательный IP-адрес интерфейса сети eth0: ff:ff:ff:ff:ff:ff";
      "Общее количество отправленных байтов: 2.00KB";
      "Общее количество полученных байтов: 1.50KB" ]
  /\ log (trace (network_info (Python311.on_eth0 [Sample.eth0_inet; Sample.eth0_inet6])))
     = [ "Информация о сети";
         "Информация о интерфейсе сети: eth0";
         "Тип интерфейса сети eth0: AddressFamily.AF_INET";
         "IP интерфейса сети eth0: 192.168.1.10";
         "Сетевая маска интерфейса сети eth0: 255.255.255.0";
         "Широковещательный IP-адрес интерфейса сети eth0: 192.168.1.255";
         "Информация о интерфейсе сети: eth0";
         "Тип интерфейса сети eth0: AddressFamily.AF_INET6";
         "MAC-адрес интерфейса сети eth0: fe80::a8bb:ccff:fedd:eeff";
         "Сетевая маска интерфейса сети eth0: ffff:ffff:ffff:ffff::";
         "Широковещательный IP-адрес интерфейса сети eth0: None";
         "Общее количество отправленных байтов: 2.00KB";
         "Общее количество полученных байтов: 1.50KB" ].
Proof. split; vm_compute; reflexivity. Qed.

(** *** Counting the interface headers *)

Lemma length_append (a s : string) :
  String.length (a ++ s) = (String.length a + String.length s)%nat.
Proof. induction a as [| c a IH]; simpl; [reflexivity | now rewrite IH]. Qed.

Lemma append_cancel_r (s a b : string) : a ++ s = b ++ s -> a = b.
Proof.
  revert b. induction a as [| c a IH]; intros [| c' b] H.
  - reflexivity.
  - apply (f_equal String.length) in H. simpl in H.
    rewrite length_append in H. lia.
  - apply (f_equal String.length) in H. simpl in H.
    rewrite length_append in H. lia.
  - simpl in H. injection H as Hc Hab. subst c'. f_equal. now apply IH.
Qed.

Lemma header_message_inj (n1 n2 : string) :
  header_message n1 = header_message n2 -> n1 = n2.
Proof. unfold header_message. cbn. intros H. now injection H. Qed.

Lemma header_line_inj (n1 n2 : string) : header_line n1 = header_line n2 -> n1 = n2.
Proof.
  unfold header_line. cbn. intros H. injection H as H.
  now apply append_cancel_r in H.
Qed.

(** No fact of an address reads like a header. *)
Lemma fact_is_no_header (name' name : string) (addr : snicaddr) (f : fact) :
  In f (address_facts name' addr) ->
  render f <> header_message name /\ render f <> header_line name.
Proof.
  rewrite address_facts_shape. unfold render, header_message, header_line.
  intros [<- | [<- | [<- | [<- | []]]]]; cbn [fst snd];
    try (destruct (classify (Py.str_enum (family addr))); cbn [address_label]);
    split; cbn; discriminate.
Qed.

Lemma log_print_log_facts {A} (text : A -> string) (l : list A) :
  log (flat_map (fun x => print_log_events (text x)) l) = map text l.
Proof. induction l as [| x l IH]; simpl; [reflexivity | now rewrite IH]. Qed.

Lemma console_print_log_facts {A} (text : A -> string) (l : list A) :
  console (flat_map (fun x => print_log_events (text x)) l) = map text l.
Proof. induction l as [| x l IH]; simpl; [reflexivity | now rewrite IH]. Qed.

Lemma count_occ_facts (name' : string) (addr : snicaddr) (x : string) :
  (forall f, In f (address_facts name' addr) -> render f <> x) ->
  count_occ string_dec (map render (address_facts name' addr)) x = 0%nat.
Proof.
  intros H. apply count_occ_not_In. intros Hin.
  apply in_map_iff in Hin as (f & Hf & Hin). exact (H f Hin Hf).
Qed.

Lemma network_interface_events (item : string * list snicaddr) :
  network_interface item
  = (flat_map (fun addr => trace (network_address (fst item) addr)) (snd item),
     Returned tt).
Proof.
  destruct item as [name addrs]. unfold network_interface. cbn [fst snd].
  apply for_each_returns. intros addr _. now rewrite network_address_events.
Qed.

(** Counting one interface's header in a view of the trace ([log] or
    [console]), given how often one address contributes it. *)
Section CountHeaders.

Variable view : list event -> list string.
Hypothesis view_app : forall t1 t2, view (t1 ++ t2) = (view t1 ++ view t2)%list.
Hypothesis view_nil : view [] = [].

Variable header : string -> string.
Variable name : string.

Hypothesis per_address : forall name' addr,
  count_occ string_dec (view (trace (network_address name' addr))) (header name)
  = if string_dec name' name then 1%nat else 0%nat.

Lemma occurrences_interface (item : string * list snicaddr) :
  count_occ string_dec (view (trace (network_interface item))) (header name)
  = if string_dec (fst item) name then List.length (snd item) else 0%nat.
Proof.
  rewrite network_interface_events. cbn [trace fst].
  destruct item as [name' addrs]. cbn [fst snd].
  induction addrs as [| addr addrs IH]; cbn [flat_map List.length].
  - rewrite view_nil. now destruct (string_dec name' name).
  - rewrite view_app, count_occ_app, IH, per_address.
    now destruct (string_dec name' name).
Qed.

Lemma occurrences_absent (items : list (string * list snicaddr)) :
  ~ In name (map fst items) ->
  count_occ string_dec
    (view (flat_map (fun item => trace (network_interface item)) items))
    (header name) = 0%nat.
Proof.
  induction items as [| item items IH]; cbn [flat_map map]; intros Hnot.
  - now rewrite view_nil.
  - rewrite view_app, count_occ_app, occurrences_interface, IH.
    + destruct (string_dec (fst item) name) as [E |]; [| reflexivity].
      elim Hnot. now left.
    + intros Hin. apply Hnot. now right.
Qed.

Lemma occurrences_interfaces
    (items : list (string * list snicaddr)) (addrs : list snicaddr) :
  NoDup (map fst items) -> In (name, addrs) items ->
  count_occ string_dec
    (view (flat_map (fun item => trace (network_interface item)) items))
    (header name)
  = List.length addrs.
Proof.
  induction items as [| item items IH]; cbn [flat_map map]; intros Hnd Hin.
  - destruct Hin.
  - apply NoDup_cons_iff in Hnd as [Hfresh Hnd].
    rewrite view_app, count_occ_app, occurrences_interface.
    destruct Hin as [-> | Hin].
    + cbn [fst snd] in *. rewrite occurrences_absent by exact Hfresh.
      destruct (string_dec name name) as [_ | Hne]; [lia | now elim Hne].
    + rewrite (IH Hnd Hin).
      destruct (string_dec (fst item) name) as [E | _]; [| reflexivity].
      elim Hfresh. rewrite E. apply (in_map fst _ _ Hin).
Qed.

End CountHeaders.

Lemma network_info_events (self : ResourceMonitor) :
  network_info self
  = (([ Print "========== Информация о сети =========="; LogInfo "Информация о сети" ]
        ++ flat_map (fun item => trace (network_interface item)) (if_addrs self)
        ++ counter_events (net_io self))%list,
     match net_io self with
     | Some _ => Returned tt
     | None => Raised AttributeError
     end).
Proof.
  unfold network_info. rewrite for_each_returns.
  - destruct (net_io self) as [counters |]; cbn [counter_events getattr].
    + reflexivity.
    + run_io. now rewrite app_nil_r.
  - intros item _. now rewrite network_interface_events.
Qed.

Lemma header_message_per_address (name name' : string) (addr : snicaddr) :
  count_occ string_dec (log (trace (network_address name' addr))) (header_message name)
  = if string_dec name' name then 1%nat else 0%nat.
Proof.
  rewrite network_address_events. cbn [trace fst].
  rewrite log_app, log_print_log_facts, count_occ_app, count_occ_facts.
  - cbn [interface_header log count_occ]. fold (header_message name').
    destruct (string_dec (header_message name') (header_message name)) as [E | Hne];
      destruct (string_dec name' name) as [E' | Hne']; try reflexivity.
    + elim Hne'. now apply header_message_inj.
    + elim Hne. now rewrite E'.
  - intros f Hf. now apply (fact_is_no_header name' name addr f).
Qed.

Lemma header_line_per_address (name name' : string) (addr : snicaddr) :
  count_occ string_dec (console (trace (network_address name' addr))) (header_line name)
  = if string_dec name' name then 1%nat else 0%nat.
Proof.
  rewrite network_address_events. cbn [trace fst].
  rewrite console_app, console_print_log_facts, count_occ_app, count_occ_facts.
  - cbn [interface_header console count_occ]. fold (header_line name').
    destruct (string_dec (header_line name') (header_line name)) as [E | Hne];
      destruct (string_dec name' name) as [E' | Hne']; try reflexivity.
    + elim Hne'. now apply header_line_inj.
    + elim Hne. now rewrite E'.
  - intros f Hf. now apply (fact_is_no_header name' name addr f).
Qed.

Lemma counter_events_no_header (counters : option snetio) (name : string) :
  count_occ string_dec (log (counter_events counters)) (header_message name) = 0%nat
  /\ count_occ string_dec (console (counter_events counters)) (header_line name) = 0%nat.
Proof.
  destruct counters as [c |]; [| split; reflexivity].
  cbn [counter_events print_log_events app log console count_occ].
  split;
    repeat match goal with
    | |- context [string_dec ?a ?b] =>
        destruct (string_dec a b) as [E | _];
        [ exfalso; revert E; unfold header_message, header_line; cbn; discriminate |]
    end;
    reflexivity.
Qed.

(** C10.  The header of an interface is written inside the loop over
    its addresses: for an interface with [n] addresses, the message
    "Информация о интерфейсе сети: <name>" is logged, and its framed line
    printed, exactly [n] times by [network_info].  (The interface table
    is a dictionary: no name occurs twice.) *)
Theorem interface_header_once_per_address
    (self : ResourceMonitor) (name : string) (addrs : list snicaddr) :
  NoDup (map fst (if_addrs self)) ->
  In (name, addrs) (if_addrs self) ->
  count_occ string_dec (log (trace (network_info self))) (header_message name)
  = List.length addrs
  /\ count_occ string_dec (console (trace (network_info self))) (header_line name)
     = List.length addrs.
Proof.
  intros Hnd Hin. rewrite network_info_events. cbn [trace fst].
  destruct (counter_events_no_header (net_io self) name) as [Hlog Hconsole].
  split.
  - rewrite !log_app, !count_occ_app, Hlog.
    rewrite (occurrences_interfaces log log_app eq_refl header_message name
               (header_message_per_address name) _ addrs Hnd Hin).
    cbn [log count_occ].
    destruct (string_dec "Информация о сети" (header_message name)) as [E | _];
      [exfalso; revert E; unfold header_message; cbn; discriminate | lia].
  - rewrite !console_app, !count_occ_app, Hconsole.
    rewrite (occurrences_interfaces console console_app eq_refl header_line name
               (header_line_per_address name) _ addrs Hnd Hin).
    cbn [console count_occ].
    destruct (string_dec "========== Информация о сети ==========" (header_line name))
      as [E | _];
      [exfalso; revert E; unfold header_line; cbn; discriminate | lia].
Qed.

Lemma interface_header_once_per_address_witness :
  count_occ string_dec (log (trace (network_info (init Sample.host))))
    "Информация о интерфейсе сети: eth0" = 2%nat
  /\ count_occ string_dec (console (trace (network_info (init Sample.host))))
       "===== Информация о интерфейсе сети: eth0 =====" = 2%nat.
Proof.
  apply (interface_header_once_per_address (init Sample.host) "eth0"
           [Sample.eth0_inet; Sample.eth0_packet]).
  - cbn. repeat constructor; cbn; intuition discriminate.
  - cbn. right. left. reflexivity.
Defined.

(** ** Console and log *)

Lemma Paired_app (t1 t2 : list event) : Paired t1 -> Paired t2 -> Paired (t1 ++ t2).
Proof.
  intros H1 H2. induction H1; cbn [app]; [exact H2 | |]; now constructor.
Qed.

Lemma Paired_views (t : list event) :
  Paired t -> Forall2 same_or_framed (console t) (log t).
Proof.
  induction 1 as [| text t _ IH | n text t _ IH]; cbn [console log].
  - constructor.
  - constructor; [now left | exact IH].
  - constructor; [right; now exists n | exact IH].
Qed.

Section PairedComputations.

Lemma paired_bind {A B} (m : io A) (k : A -> io B) :
  Paired (trace m) -> (forall a, Paired (trace (k a))) -> Paired (trace (bind m k)).
Proof.
  intros Hm Hk. rewrite trace_bind.
  destruct (result m) as [a | e]; [apply Paired_app; [exact Hm | apply Hk] | exact Hm].
Qed.

Lemma paired_ret {A} (a : A) : Paired (trace (ret a)).
Proof. constructor. Qed.

Lemma paired_print_log (text : string) : Paired (trace (print_log text)).
Proof. run_io. repeat constructor. Qed.

Lemma paired_fact_then {B} (text : string) (k : io B) :
  Paired (trace k) -> Paired (trace (print_log text ;; k)).
Proof. intros H. apply paired_bind; [apply paired_print_log | intros _; exact H]. Qed.

Lemma paired_header_then {B} (n : nat) (text : string) (k : io B) :
  Paired (trace k) ->
  Paired (trace (print3 (Py.str_mul "=" n) text (Py.str_mul "=" n) ;;
                 logging_info text ;; k)).
Proof.
  intros H. destruct k as [t r]. run_io.
  apply (Paired_header n text t). exact H.
Qed.

Lemma paired_getattr_then {A B C} (obj : option A) (attr : A -> B) (k : B -> io C) :
  (forall x, Paired (trace (k x))) -> Paired (trace (x <- getattr obj attr ;; k x)).
Proof.
  intros H. destruct obj as [a |].
  - cbn [getattr]. rewrite bind_ret. apply H.
  - constructor.
Qed.

Lemma paired_for_each {A} (body : A -> io unit) (l : list A) :
  (forall x, Paired (trace (body x))) -> Paired (trace (for_each body l)).
Proof.
  intros H. induction l as [| x l IH]; cbn [for_each].
  - apply paired_ret.
  - apply paired_bind; [apply H | intros _; exact IH].
Qed.

End PairedComputations.

Ltac paired :=
  repeat first
    [ apply paired_header_then
    | apply paired_fact_then
    | apply paired_print_log
    | apply paired_ret
    | apply paired_getattr_then; intros ?
    | apply paired_for_each; intros ?
    | apply paired_bind; [| intros ?] ].

Lemma system_info_paired (self : ResourceMonitor) : Paired (trace (system_info self)).
Proof. unfold system_info. paired. Qed.

Lemma proc_info_paired (self : ResourceMonitor) (w : World) :
  Paired (trace (proc_info self w)).
Proof.
  unfold proc_info. paired.
  match goal with x : (nat * Py.tenths)%type |- _ => destruct x end. paired.
Qed.

Lemma ram_info_paired (self : ResourceMonitor) : Paired (trace (ram_info self)).
Proof.
  unfold ram_info. rewrite sswap_is_true. unfold swap_lines. paired.
Qed.

Lemma disk_partition_paired (w : World) (p : sdiskpart) :
  Paired (trace (disk_partition w p)).
Proof.
  unfold disk_partition, disk_usage. paired.
  destruct (psutil_disk_usage w (mountpoint p)) as [[ | | | ] | u];
    cbn [ret raise]; try unfold disk_usage_lines; paired; constructor.
Qed.

Lemma disk_info_paired (self : ResourceMonitor) (w : World) :
  Paired (trace (disk_info self w)).
Proof.
  unfold disk_info. apply paired_header_then, paired_for_each.
  intros p. apply disk_partition_paired.
Qed.

Lemma network_info_paired (self : ResourceMonitor) : Paired (trace (network_info self)).
Proof.
  unfold network_info. paired.
  match goal with x : (string * list snicaddr)%type |- _ => destruct x end.
  unfold network_interface, network_address. paired.
Qed.

Lemma call_all_paired (self : ResourceMonitor) (w : World) :
  Paired (trace (call_all self w)).
Proof.
  unfold call_all.
  apply paired_bind; [apply system_info_paired | intros _].
  apply paired_bind; [apply proc_info_paired | intros _].
  apply paired_bind; [apply ram_info_paired | intros _].
  apply paired_bind; [apply disk_info_paired | intros _].
  apply network_info_paired.
Qed.

(** C9 (as the code has it).  Every fact goes through [print_log],
    which hands the same text to the logger and to the console; a header
    is printed between two runs of "=" and logged without them.  So over
    a whole run console and log have the same number of entries, in the
    same order, and each printed line is the logged message or that
    message in its frame.  This holds also for a run cut short by an
    exception. *)
Theorem console_matches_log_up_to_frames (self : ResourceMonitor) (w : World) :
  Forall2 same_or_framed
    (console (trace (call_all self w))) (log (trace (call_all self w))).
Proof. apply Paired_views, call_all_paired. Qed.

(** C9, as the specification writes it: on the sample host the printed
    lines and the logged messages are not the same sequence (the first
    printed line is the framed header, the first logged message the bare
    one). *)
Lemma console_differs_from_log :
  console (trace (start_pc_monitor Sample.host))
  <> log (trace (start_pc_monitor Sample.host))
  /\ hd_error (console (trace (start_pc_monitor Sample.host)))
     = Some "========== Информация о системе =========="
  /\ hd_error (log (trace (start_pc_monitor Sample.host)))
     = Some "Информация о системе".
Proof.
  split; [| split; vm_compute; reflexivity].
  vm_compute. intros H. discriminate H.
Qed.

(** * Further properties *)

(** ** The size formatter, unit by unit *)

Section GetSizeUnits.

#[local] Open Scope Q_scope.

Lemma below_pow2_representable (k : Z) :
  (-1021 <= k <= 1024)%Z -> representable (below_pow2 k).
Proof.
  intros H. exists (2 ^ 53 - 1)%Z, (k - 53)%Z. repeat split; lia.
Qed.

Lemma below_pow2_lt (k : Z) : below_pow2 k < Py.pow2 k.
Proof.
  unfold below_pow2. replace k with (53 + (k - 53))%Z at 2 by lia.
  rewrite pow2_add. apply Qmult_lt_r; [apply pow2_pos |].
  rewrite pow2_whole by lia. now rewrite <- Zlt_Qlt.
Qed.

Lemma below_pow2_div (k : Z) : below_pow2 k / factor == below_pow2 (k - 10).
Proof.
  unfold below_pow2. replace (k - 10 - 53)%Z with (k - 53 - 10)%Z by lia.
  rewrite (pow2_sub (k - 53) 10), pow2_10. unfold factor. field.
Qed.

(** A value below 1024 to the number of units left, by at least one
    binary64 step, is rendered in one of them. *)
Lemma get_size_loop_returns (us : list string) (v : Q) (s : string) :
  us <> [] -> (List.length us <= 6)%nat ->
  v <= below_pow2 (10 * Z.of_nat (List.length us)) ->
  exists text, get_size_loop us v s = Some text.
Proof.
  revert v. induction us as [| u us IH]; intros v Hne Hlen H; [now elim Hne |].
  cbn [get_size_loop].
  destruct (negb (Qle_bool factor v)) eqn:E; [eexists; reflexivity |].
  apply not_below_factor in E.
  destruct us as [| u' us].
  - exfalso. pose proof (below_pow2_lt 10) as Hlt.
    change (10 * Z.of_nat (List.length [u]))%Z with 10%Z in H. rewrite pow2_10 in Hlt.
    apply (Qlt_irrefl factor). eapply Qle_lt_trans; [exact E |].
    eapply Qle_lt_trans; [exact H | exact Hlt].
  - cbn [List.length] in Hlen.
    apply IH; [discriminate | cbn [List.length]; lia |].
    set (k := (10 * Z.of_nat (List.length (u' :: us)))%Z).
    assert (Hk : (10 * Z.of_nat (List.length (u :: u' :: us)) = k + 10)%Z).
    { unfold k. cbn [List.length]. lia. }
    rewrite Hk in H.
    assert (Hk0 : (10 <= k <= 60)%Z) by (unfold k; cbn [List.length]; lia).
    rewrite <- (binary64_exact (below_pow2 k)) by (apply below_pow2_representable; lia).
    rewrite <- (binary64_comp (below_pow2 (k + 10) / factor) (below_pow2 k)).
    + apply binary64_mono.
      * apply Qle_shift_div_l; [reflexivity |].
        eapply Qle_trans; [| exact E]. discriminate.
      * apply Qmult_le_r; [reflexivity | exact H].
    + rewrite below_pow2_div. now replace (k + 10 - 10)%Z with k by lia.
Qed.

Lemma div_factor_le (x y : Q) : x <= y -> x / factor <= y / factor.
Proof. intros H. apply Qmult_le_r; [reflexivity | exact H]. Qed.

Lemma div_factor_normal (x : Q) : factor <= x -> Py.pow2 (-1022) <= x / factor.
Proof.
  intros H. apply Qle_shift_div_l; [reflexivity |].
  eapply Qle_trans; [| exact H]. discriminate.
Qed.

Lemma get_size_first_unit (q : Q) (suffix : string) :
  get_size q suffix
  = if negb (Qle_bool factor q) then Some (Py.format_2f q ++ "" ++ suffix)
    else get_size_loop ["K"; "M"; "G"; "T"; "P"]%string (Py.binary64 (q / factor)) suffix.
Proof. reflexivity. Qed.

(** For integers, the last value that is rendered is 2^60 - 65: the 64
    integers after it are 1024.0 "P" once divided, and fall off the loop
    like everything from 2^60 on.  (Below -2^1023 the conversion to
    [float] overflows, which is outside this model.) *)
Theorem get_size_int_returns_iff (n : Z) (suffix : string) :
  (- 2 ^ 1023 < n)%Z ->
  (exists text, get_size (inject_Z n) suffix = Some text) <-> (n < 2 ^ 60 - 64)%Z.
Proof.
  intros _. rewrite get_size_first_unit.
  destruct (negb (Qle_bool factor (inject_Z n))) eqn:E.
  - apply below_factor in E. change factor with (inject_Z 1024) in E.
    rewrite <- Zlt_Qlt in E. split; [lia | eexists; reflexivity].
  - apply not_below_factor in E. split.
    + intros [text H]. apply Z.lt_nge. intros Hge.
      rewrite get_size_loop_exhausted in H; [discriminate H |].
      change (Py.pow2 (10 * Z.of_nat (List.length ["K"; "M"; "G"; "T"; "P"]%string)))
        with (Py.pow2 50).
      assert (Hc : Py.binary64 (inject_Z (2 ^ 60 - 64) / factor) == Py.pow2 50)
        by (vm_compute; reflexivity).
      rewrite <- Hc. apply binary64_mono.
      * apply div_factor_normal. discriminate.
      * apply div_factor_le. now rewrite <- Zle_Qle.
    + intros Hlt. apply get_size_loop_returns; [discriminate | cbn; lia |].
      change (below_pow2 (10 * Z.of_nat (List.length ["K"; "M"; "G"; "T"; "P"]%string)))
        with (below_pow2 50).
      assert (Hc : Py.binary64 (inject_Z (2 ^ 60 - 65) / factor) == below_pow2 50)
        by (vm_compute; reflexivity).
      rewrite <- Hc. apply binary64_mono.
      * now apply div_factor_normal.
      * apply div_factor_le. rewrite <- Zle_Qle. lia.
Qed.

Lemma get_size_int_returns_iff_witness :
  (exists text, get_size (inject_Z (2 ^ 60 - 65)) "B" = Some text)
  /\ get_size (inject_Z (2 ^ 60 - 64)) "B" = None
  /\ get_size (inject_Z (2 ^ 60 - 65)) "B" = Some "1024.00PB".
Proof.
  split; [| split; vm_compute; reflexivity].
  apply (get_size_int_returns_iff (2 ^ 60 - 65) "B"); reflexivity.
Defined.

Lemma kibi_power_pos (k : nat) : 0 < kibi_power k.
Proof.
  induction k as [| k IH]; cbn [kibi_power]; [reflexivity |].
  apply Qmult_lt_0_compat; [reflexivity | exact IH].
Qed.

Lemma kibi_power_ge_1 (k : nat) : 1 <= kibi_power k.
Proof.
  induction k as [| k IH]; cbn [kibi_power]; [discriminate |].
  rewrite <- (Qmult_1_l 1). apply Qmult_le_compat_nonneg; split; try discriminate.
  exact IH.
Qed.

Lemma kibi_power_pow2 (k : nat) : kibi_power k == Py.pow2 (10 * Z.of_nat k).
Proof.
  induction k as [| k IH]; cbn [kibi_power]; [reflexivity |].
  rewrite IH, Nat2Z.inj_succ.
  replace (10 * Z.succ (Z.of_nat k))%Z with (10 + 10 * Z.of_nat k)%Z by lia.
  now rewrite pow2_add, pow2_10.
Qed.

Lemma nonzero_of_pos (x : Q) : 0 < x -> ~ x == 0.
Proof. intros H E. rewrite E in H. discriminate H. Qed.

(** The unit is chosen by the magnitude of the argument, and a number
    that binary64 holds is scaled without rounding. *)
Lemma get_size_loop_in_unit (k : nat) :
  forall (us : list string) (unit : string) (v : Q) (s : string),
    representable v ->
    nth_error us k = Some unit ->
    k = 0%nat \/ kibi_power k <= v ->
    v < kibi_power (S k) ->
    get_size_loop us v s = Some (Py.format_2f (v / kibi_power k) ++ unit ++ s).
Proof.
  induction k as [| k IH]; intros us unit v s Hrep Hunit Hlo Hhi.
  - destruct us as [| u us]; [discriminate Hunit |]. injection Hunit as ->.
    cbn [get_size_loop kibi_power] in *.
    assert (E : negb (Qle_bool factor v) = true).
    { apply below_factor. unfold factor. now rewrite Qmult_1_r in Hhi. }
    rewrite E. do 2 f_equal. apply format_2f_comp. field.
  - destruct us as [| u us]; [discriminate Hunit |]. cbn [nth_error] in Hunit.
    destruct Hlo as [Hk | Hlo]; [discriminate Hk |].
    pose proof (kibi_power_pos k) as Hpos. pose proof (kibi_power_ge_1 k) as Hone.
    cbn [kibi_power] in Hlo.
    assert (Hge : factor <= v).
    { eapply Qle_trans; [| exact Hlo]. unfold factor.
      rewrite <- (Qmult_1_r 1024) at 1. apply Qmult_le_l; [reflexivity | exact Hone]. }
    cbn [get_size_loop]. apply not_below_factor in Hge as E. rewrite E.
    rewrite (get_size_loop_comp us _ (v / factor)) by (now apply binary64_div_1024).
    rewrite (IH us unit (v / factor) s).
    + do 2 f_equal. apply format_2f_comp. cbn [kibi_power]. unfold factor. field.
      now apply nonzero_of_pos.
    + now apply representable_div_1024.
    + exact Hunit.
    + right. apply Qle_shift_div_l; [reflexivity |]. unfold factor.
      now rewrite Qmult_comm.
    + apply Qlt_shift_div_r; [reflexivity |]. unfold factor.
      cbn [kibi_power] in Hhi. now rewrite Qmult_comm.
Qed.

Lemma representable_div_kibi (k : nat) (q : Q) :
  representable q -> kibi_power k <= q -> representable (q / kibi_power k).
Proof.
  revert q. induction k as [| k IH]; intros q Hrep H; cbn [kibi_power] in *.
  - apply (representable_comp q); [field | exact Hrep].
  - pose proof (kibi_power_pos k) as Hpos. pose proof (kibi_power_ge_1 k) as Hone.
    assert (Hge : 1024 <= q).
    { eapply Qle_trans; [| exact H].
      rewrite <- (Qmult_1_r 1024) at 1. apply Qmult_le_l; [reflexivity | exact Hone]. }
    apply (representable_comp (q / 1024 / kibi_power k)).
    + field. now apply nonzero_of_pos.
    + apply IH; [now apply representable_div_1024 |].
      apply Qle_shift_div_l; [reflexivity |]. now rewrite Qmult_comm.
Qed.

(** An argument that binary64 holds (a [float], or an [int] that is
    converted without rounding), between 1024^k and 1024^(k+1) (below
    1024 for the first unit, negative numbers included), is rendered as
    itself divided by 1024^k, with the k-th unit symbol and the suffix.
    The number that is formatted is below 1024 and, past the first
    unit, at least 1 (its two decimals may still read 1024.00). *)
Theorem get_size_scaled_range (k : nat) (unit : string) (q : Q) (suffix : string) :
  representable q ->
  nth_error units k = Some unit ->
  k = 0%nat \/ kibi_power k <= q ->
  q < kibi_power (S k) ->
  get_size q suffix = Some (Py.format_2f (q / kibi_power k) ++ unit ++ suffix)
  /\ q / kibi_power k < 1024
  /\ (k <> 0%nat -> 1 <= q / kibi_power k).
Proof.
  intros Hrep Hunit Hlo Hhi. pose proof (kibi_power_pos k) as Hpos.
  split; [now apply get_size_loop_in_unit |]. split.
  - apply Qlt_shift_div_r; [exact Hpos | exact Hhi].
  - intros Hk. destruct Hlo as [Hk0 | Hlo]; [contradiction |].
    apply Qle_shift_div_l; [exact Hpos |]. now rewrite Qmult_1_l.
Qed.

Lemma get_size_scaled_range_witness :
  get_size 5242880 "B" = Some (Py.format_2f (5242880 / kibi_power 2) ++ "M" ++ "B")
  /\ 5242880 / kibi_power 2 < 1024
  /\ get_size 5242880 "B" = Some "5.00MB".
Proof.
  assert (Hrep : representable 5242880).
  { apply (representable_whole 5242880). reflexivity. }
  assert (Hlo : 2%nat = 0%nat \/ kibi_power 2 <= 5242880) by (right; discriminate).
  destruct (get_size_scaled_range 2 "M" 5242880 "B" Hrep eq_refl Hlo eq_refl)
    as (H1 & H2 & _).
  split; [exact H1 | split; [exact H2 | vm_compute; reflexivity]].
Defined.

Lemma append_assoc (a b c : string) : ((a ++ b) ++ c = a ++ b ++ c)%string.
Proof. induction a as [| x a IH]; cbn; [reflexivity | now rewrite IH]. Qed.

Lemma str_Z_negative (p : positive) :
  Py.str_Z (Z.neg p) = ("-" ++ Py.str_Z (Z.pos p))%string.
Proof. reflexivity. Qed.

(** An [int] that binary64 holds is formatted with two zeros. *)
Lemma format_2f_whole (n : Z) :
  (Z.abs n < 2 ^ 53)%Z -> Py.format_2f (inject_Z n) = (Py.str_Z n ++ ".00")%string.
Proof.
  intros Hn. unfold Py.format_2f.
  rewrite (round_half_even_comp _ (inject_Z (Z.abs n * 100))).
  2:{ rewrite (binary64_exact (inject_Z n)) by (now apply representable_whole).
      unfold Qabs, inject_Z, Qeq, Qmult. cbn. lia. }
  rewrite round_half_even_whole, Z.div_mul, Z.mod_mul by lia.
  destruct n as [| p | p].
  - reflexivity.
  - reflexivity.
  - cbn [Z.abs]. rewrite str_Z_negative. reflexivity.
Qed.

(** A whole number [n] of units, [n] from 1 to 1023 (in the first unit
    any [n] below 1024 that binary64 holds), is rendered as [n], ".00",
    the unit symbol and the suffix: 8 * 1024^3 bytes read "8.00GB". *)
Theorem get_size_whole_multiple (k : nat) (unit : string) (n : Z) (suffix : string) :
  nth_error units k = Some unit ->
  (k = 0%nat /\ - 2 ^ 53 < n)%Z \/ (1 <= n)%Z ->
  (n < 1024)%Z ->
  get_size (inject_Z n * kibi_power k) suffix
  = Some (Py.str_Z n ++ ".00" ++ unit ++ suffix)%string.
Proof.
  intros Hunit Hlo Hhi. pose proof (kibi_power_pos k) as Hpos.
  assert (Hk : (k < 6)%nat).
  { apply (nth_error_Some units k). congruence. }
  assert (Habs : (Z.abs n < 2 ^ 53)%Z) by lia.
  assert (Hrep : representable (inject_Z n * kibi_power k)).
  { exists n, (10 * Z.of_nat k)%Z. repeat split; try lia.
    now rewrite kibi_power_pow2. }
  assert (Hlow : k = 0%nat \/ kibi_power k <= inject_Z n * kibi_power k).
  { destruct Hlo as [[Hk0 _] | Hn]; [now left | right].
    rewrite <- (Qmult_1_l (kibi_power k)) at 1.
    apply Qmult_le_compat_r; [| now apply Qlt_le_weak].
    change 1 with (inject_Z 1). now rewrite <- Zle_Qle. }
  assert (Hhigh : inject_Z n * kibi_power k < kibi_power (S k)).
  { cbn [kibi_power]. apply Qmult_lt_compat_r; [exact Hpos |].
    change 1024 with (inject_Z 1024). now rewrite <- Zlt_Qlt. }
  unfold get_size.
  rewrite (get_size_loop_in_unit k units unit _ suffix Hrep Hunit Hlow Hhigh).
  rewrite (format_2f_comp _ (inject_Z n)).
  - now rewrite format_2f_whole, append_assoc.
  - field. now apply nonzero_of_pos.
Qed.

Lemma get_size_whole_multiple_witness :
  get_size (inject_Z 8 * kibi_power 3) "B" = Some "8.00GB"
  /\ get_size (inject_Z (-5) * kibi_power 0) "B" = Some "-5.00B".
Proof.
  split.
  - apply (get_size_whole_multiple 3 "G" 8 "B" eq_refl); [right |]; lia.
  - apply (get_size_whole_multiple 0 "" (-5) "B" eq_refl); [left; split; [reflexivity | lia] | lia].
Defined.

Lemma round_up_to_1024 (v : Q) :
  representable v -> 1023995 # 1000 < v -> v < 1024 ->
  Py.format_2f v = "1024.00"%string.
Proof.
  intros Hrep Hlo Hhi. unfold Py.format_2f.
  assert (Hpos : 0 <= v) by lra.
  rewrite (round_half_even_comp (Qabs (Py.binary64 v) * 100) (v * 100)).
  2:{ rewrite (binary64_exact v Hrep). now rewrite (Qabs_pos v Hpos). }
  assert (Efloor : Qfloor (v * 100) = 102399%Z).
  { pose proof (Qfloor_le (v * 100)) as H1.
    pose proof (Qlt_floor (v * 100)) as H2.
    assert (H3 : inject_Z (Qfloor (v * 100)) < inject_Z 102400).
    { eapply Qle_lt_trans; [exact H1 |]. change (inject_Z 102400) with 102400. lra. }
    assert (H4 : inject_Z 102399 < inject_Z (Qfloor (v * 100) + 1)).
    { eapply Qlt_trans; [| exact H2]. change (inject_Z 102399) with 102399. lra. }
    rewrite <- Zlt_Qlt in H3, H4. lia. }
  unfold Py.round_half_even. rewrite Efloor.
  assert (E : Qcompare (v * 100 - inject_Z 102399) (1 # 2) = Gt).
  { apply Qgt_alt. change (inject_Z 102399) with 102399. lra. }
  rewrite E.
  assert (Esign : Qle_bool 0 v = true) by (now apply Qle_bool_iff).
  rewrite Esign. reflexivity.
Qed.

(** An argument that binary64 holds and that is less than 0.005 units
    below the next power of 1024 stays in its unit and is rounded up:
    it reads "1024.00" with that unit, not "1.00" with the next one. *)
Theorem get_size_shows_1024 (k : nat) (unit : string) (q : Q) (suffix : string) :
  representable q ->
  nth_error units k = Some unit ->
  (1023995 # 1000) * kibi_power k < q ->
  q < kibi_power (S k) ->
  get_size q suffix = Some ("1024.00" ++ unit ++ suffix)%string.
Proof.
  intros Hrep Hunit Hlo Hhi. pose proof (kibi_power_pos k) as Hpos.
  assert (Hge : kibi_power k <= q).
  { apply Qlt_le_weak. eapply Qle_lt_trans; [| exact Hlo].
    rewrite <- (Qmult_1_l (kibi_power k)) at 1.
    apply Qmult_le_compat_r; [discriminate | now apply Qlt_le_weak]. }
  unfold get_size.
  rewrite (get_size_loop_in_unit k units unit q suffix Hrep Hunit (or_intror Hge) Hhi).
  rewrite round_up_to_1024; [reflexivity | | |].
  - now apply representable_div_kibi.
  - apply Qlt_shift_div_l; [exact Hpos | exact Hlo].
  - apply Qlt_shift_div_r; [exact Hpos | exact Hhi].
Qed.

Lemma get_size_shows_1024_witness :
  get_size (1048575 # 1) "B" = Some "1024.00KB".
Proof.
  apply (get_size_shows_1024 1 "K" (1048575 # 1) "B"); try reflexivity.
  apply (representable_whole 1048575). reflexivity.
Defined.

End GetSizeUnits.

(** ** Percentages through the size formatter *)

(** The percentages below 1024.0, one by one. *)
Lemma percentages_checked :
  forallb (fun n => String.eqb (size (Py.tenths_value (N.of_nat n)))
                      (Py.str_tenths (N.of_nat n) ++ "0B"))
    (seq 0 (N.to_nat 10240)) = true.
Proof. vm_compute. reflexivity. Qed.

(** A percentage below 1024.0 that goes through [get_size] comes out as
    its own text followed by "0B": 45.3 reads "45.30B". *)
Theorem percentage_through_get_size (t : Py.tenths) :
  (t < 10240)%N ->
  size (Py.tenths_value t) = Py.str_tenths t ++ "0B".
Proof.
  intros H. pose proof percentages_checked as C.
  rewrite forallb_forall in C.
  specialize (C (N.to_nat t)). rewrite N2Nat.id in C.
  apply String.eqb_eq, C, in_seq. lia.
Qed.

Lemma percentage_through_get_size_witness :
  size (Py.tenths_value 453%N) = "45.30B".
Proof. exact (percentage_through_get_size 453%N eq_refl). Defined.

(** ** Outcomes of the methods *)








Lemma exn_eq_dec (e e' : exn) : {e = e'} + {e <> e'}.
Proof. decide equality. Qed.

Lemma for_each_returned_inv {A} (body : A -> io unit) (l : list A) :
  result (for_each body l) = Returned tt ->
  forall x, In x l -> result (body x) = Returned tt.
Proof.
  induction l as [| y l IH]; cbn [for_each]; intros H x Hin; [destruct Hin |].
  rewrite result_bind in H.
  destruct (result (body y)) as [[] | e] eqn:E; [| discriminate H].
  destruct Hin as [<- | Hin]; [exact E | now apply IH].
Qed.

Lemma disk_partition_result (w : World) (p : sdiskpart) :
  result (disk_partition w p) = Returned tt <-> usable w p.
Proof.
  unfold usable. destruct (psutil_disk_usage w (mountpoint p)) as [e | u] eqn:E.
  - destruct (exn_eq_dec e PermissionError) as [-> | Hne].
    + rewrite (disk_partition_denied w p E). split; [now left | reflexivity].
    + rewrite (disk_partition_other_error w p e E Hne).
      split; [discriminate |]. intros [H | [u H]]; [| discriminate H].
      injection H as ->. now elim Hne.
  - rewrite (disk_partition_measured w p u E). split; [right; now exists u | reflexivity].
Qed.

Lemma disk_info_returned_usable (self : ResourceMonitor) (w : World) :
  result (disk_info self w) = Returned tt ->
  forall p, In p (partitions self) -> usable w p.
Proof.
  rewrite disk_info_loop. cbn [result snd]. intros H p Hp.
  apply disk_partition_result.
  now apply (for_each_returned_inv (disk_partition w) (partitions self) H).
Qed.

(** [disk_info] runs to its end exactly when the usage query of every
    partition either succeeds or is refused for want of permission. *)
Theorem disk_info_returns_iff (self : ResourceMonitor) (w : World) :
  result (disk_info self w) = Returned tt
  <-> forall p, In p (partitions self) -> usable w p.
Proof.
  split; [apply disk_info_returned_usable | apply disk_info_returns].
Qed.

(** A usage query that fails with another exception than
    [PermissionError] ends [disk_info] with that exception, after the
    header and the file-system line of its partition; the partitions
    after it are not reported at all. *)
Theorem disk_info_stops_at_other_error
    (self : ResourceMonitor) (w : World)
    (before : list sdiskpart) (p : sdiskpart) (after : list sdiskpart) (e : exn) :
  partitions self = (before ++ p :: after)%list ->
  result (for_each (disk_partition w) before) = Returned tt ->
  psutil_disk_usage w (mountpoint p) = inl e ->
  e <> PermissionError ->
  disk_info self w
  = ((disk_header ++ trace (for_each (disk_partition w) before)
        ++ partition_identity p)%list,
     Raised e).
Proof.
  intros Hparts Hbefore Herr Hne.
  rewrite disk_info_loop, Hparts, for_each_app.
  rewrite (io_eta (for_each (disk_partition w) before)), Hbefore.
  rewrite bind_returned. cbn [for_each].
  rewrite (disk_partition_other_error w p e Herr Hne). reflexivity.
Qed.

Lemma disk_info_stops_at_other_error_witness :
  result (disk_info (init Sample.host) Faulty.host_no_medium) = Raised OSError
  /\ console (trace (disk_info (init Sample.host) Faulty.host_no_medium))
     = [ "========== Информация о дисках ==========";
         "===== Информация о разделе диска: /dev/sda1 =====";
         "Файловая система раздела диска /dev/sda1: ext4";
         "Общий обьем раздела диска /dev/sda1: 100.00GB";
         "Используемый обьем раздела диска /dev/sda1: 40.00GB";
         "Свободный обьем раздела диска /dev/sda1: 60.00GB";
         "Процент объема раздела диска /dev/sda1: 40.00B";
         "===== Информация о разделе диска: /dev/sr0 =====";
         "Файловая система раздела диска /dev/sr0: iso9660" ].
Proof.
  assert (Hne : OSError <> PermissionError) by discriminate.
  rewrite (disk_info_stops_at_other_error
             (init Sample.host) Faulty.host_no_medium
             [Sample.sda1] Sample.sr0 [Sample.sdb1] OSError
             eq_refl eq_refl eq_refl Hne).
  split; vm_compute; reflexivity.
Defined.


Lemma system_info_returns (self : ResourceMonitor) :
  system_info self = (trace (system_info self), Returned tt).
Proof. reflexivity. Qed.


(** Without a frequency reading a whole run ends in [proc_info]: the
    system section and the two core counts are written, then
    [AttributeError] is raised; nothing is written about the memory, the
    disks or the network. *)
Theorem call_all_stops_without_frequency (self : ResourceMonitor) (w : World) :
  cpufreq self = None ->
  call_all self w
  = ((trace (system_info self) ++ core_count_events w)%list, Raised AttributeError).
Proof.
  intros H. unfold call_all.
  rewrite system_info_returns, bind_returned.
  assert (E : proc_info self w = (core_count_events w, Raised AttributeError)).
  { unfold proc_info. rewrite H. reflexivity. }
  rewrite E. reflexivity.
Qed.

Lemma call_all_stops_without_frequency_witness :
  result (call_all (init Sample.host_no_freq) Sample.host_no_freq)
  = Raised AttributeError
  /\ List.length (log (trace (call_all (init Sample.host_no_freq) Sample.host_no_freq)))
     = 10%nat.
Proof.
  rewrite (call_all_stops_without_frequency
             (init Sample.host_no_freq) Sample.host_no_freq eq_refl).
  split; reflexivity.
Defined.



(** Where the directory of the log file is missing, the run ends in
    [start_logger], before anything is printed or logged. *)
Lemma start_pc_monitor_without_log_file (w : World) (e : exn) :
  open_log_file w = Some e -> start_pc_monitor w = ([], Raised e).
Proof. intros H. unfold start_pc_monitor, start_logger. now rewrite H. Qed.

Lemma length_log_interfaces (items : list (string * list snicaddr)) :
  List.length (log (flat_map (fun item => trace (network_interface item)) items))
  = (5 * List.length (flat_map snd items))%nat
  /\ List.length (console (flat_map (fun item => trace (network_interface item)) items))
     = (5 * List.length (flat_map snd items))%nat.
Proof.
  induction items as [| [name addrs] items [IHl IHc]]; cbn [flat_map]; [now split |].
  rewrite log_app, console_app, !length_app, IHl, IHc.
  rewrite network_interface_events. cbn [trace fst snd].
  assert (H : List.length (log (flat_map (fun addr => trace (network_address name addr)) addrs))
              = (5 * List.length addrs)%nat
              /\ List.length (console (flat_map (fun addr => trace (network_address name addr)) addrs))
                 = (5 * List.length addrs)%nat).
  { induction addrs as [| addr addrs [IHa IHb]]; cbn [flat_map]; [now split |].
    rewrite log_app, console_app, !length_app, IHa, IHb.
    rewrite network_address_events. cbn [trace fst].
    rewrite log_app, console_app, log_print_log_facts, console_print_log_facts.
    rewrite !length_app, !length_map, address_facts_shape.
    cbn [interface_header log console List.length]. lia. }
  destruct H as [Hl Hc]. rewrite Hl, Hc. lia.
Qed.

(** [network_info] writes, to the log and to the console alike, one
    entry for the section header and five for every address (the header
    of its interface and four facts), then the two counter lines where
    the collector holds counters; an interface without addresses adds
    nothing. *)
Theorem network_info_five_entries_per_address (self : ResourceMonitor) :
  List.length (log (trace (network_info self)))
  = (1 + 5 * List.length (all_addresses self)
       + match net_io self with Some _ => 2 | None => 0 end)%nat
  /\ List.length (console (trace (network_info self)))
     = (1 + 5 * List.length (all_addresses self)
          + match net_io self with Some _ => 2 | None => 0 end)%nat.
Proof.
  rewrite network_info_events. cbn [trace fst].
  destruct (length_log_interfaces (if_addrs self)) as [Hl Hc].
  rewrite !log_app, !console_app, !length_app, Hl, Hc.
  unfold all_addresses. destruct (net_io self); cbn; lia.
Qed.

(** Each domain method on its own, also when it raises, leaves as many
    lines on the console as messages in the log, and each line is the
    message of the same rank, bare or framed. *)
Theorem every_method_pairs_console_and_log
    (d : domain) (self : ResourceMonitor) (w : World) :
  Forall2 same_or_framed
    (console (trace (query d self w))) (log (trace (query d self w)))
  /\ List.length (console (trace (query d self w)))
     = List.length (log (trace (query d self w))).
Proof.
  assert (H : Paired (trace (query d self w))).
  { destruct d; cbn [query];
      auto using system_info_paired, proc_info_paired, ram_info_paired,
        disk_info_paired, network_info_paired. }
  apply Paired_views in H. split; [exact H |].
  exact (Forall2_length H).
Qed.

(** The swap section is part of every report of [ram_info]: whatever
    the swap readings, the sixth entry is the swap header and the log
    has ten entries. *)
Theorem ram_info_swap_section_unconditional (self : ResourceMonitor) :
  nth_error (log (trace (ram_info self))) 5 = Some "Информация о памяти подкачки"
  /\ nth_error (console (trace (ram_info self))) 5
     = Some "===== Информация о памяти подкачки ====="
  /\ List.length (log (trace (ram_info self))) = 10%nat
  /\ result (ram_info self) = Returned tt.
Proof.
  rewrite ram_info_log. unfold ram_info. rewrite sswap_is_true.
  repeat split.
Qed.

(** A counter of sent bytes of 1024^6 or more does not stop
    [network_info]: the line of the sent bytes then reads "None". *)
Theorem network_info_prints_None_for_huge_counter
    (self : ResourceMonitor) (counters : snetio) :
  net_io self = Some counters ->
  exbi <= inject_Z (bytes_sent counters) ->
  In "Общее количество отправленных байтов: None" (log (trace (network_info self)))
  /\ result (network_info self) = Returned tt.
Proof.
  intros Hnet H. rewrite network_info_events, Hnet. cbn [trace fst result snd].
  split; [| reflexivity].
  rewrite !log_app. apply in_or_app. right. apply in_or_app. right.
  cbn [counter_events print_log_events app log].
  left. unfold size, get_size_B.
  rewrite (get_size_None_from_exbi _ "B" H). reflexivity.
Qed.

Lemma network_info_prints_None_for_huge_counter_witness :
  In "Общее количество отправленных байтов: None"
    (log (trace (network_info Faulty.busy_link)))
  /\ result (network_info Faulty.busy_link) = Returned tt.
Proof.
  apply (network_info_prints_None_for_huge_counter Faulty.busy_link
           {| bytes_sent := 1152921504606846976; bytes_recv := 1536 |} eq_refl).
  discriminate.
Defined.
